(** * DESAK storefront script: cart, wishlist, loader and checkout link

    A shallow embedding of the state core of [src/script.js]: the defensive
    loader ([safeJSON], [loadJSON], the [Array.isArray] coercions), the cart
    operations ([findCartItem], [addToCart], [removeCartItem],
    [changeCartQty], [clearCart]), the wishlist operations ([isWishlisted],
    [toggleWishlist]), the subtotal computed by [renderCartDrawer] and the
    deep link of [buildShopifyCheckoutURL]; further [escapeHtml],
    [updateCartCount], [proceedToCheckout], [saveJSON] with [saveCart] and
    [saveWishlist], and the click handlers of [bindEvents].

    Conventions of the embedding.
    - A JavaScript Number is a [Z]: the development covers integer-valued
      quantities and prices (the safe-integer range, where [+], [*] and the
      decimal rendering of a Number agree with those of [Z]).
    - A JavaScript string is a [string] whose characters are code units
      below 256; product ids are strings, so every [String(id)] of the
      source is the identity and is not written.
    - [PRODUCTS_INDEX], [CART] and [WISHLIST] are module-level variables of
      the script; each operation is the function from their value before
      the call to their value after it.  Saving to [localStorage] and the
      re-rendering of the drawers read these variables and never write
      them, so they do not appear in the state transformers. *)

From stdpp Require Import base gmap list strings pretty.
From Stdlib Require Import ZArith Lia Ascii.

Local Open Scope Z_scope.

(** ** Data model *)

(** An entry of the static [PRODUCTS] list and of [PRODUCTS_INDEX]. *)
Record Product := mkProduct {
  p_id : string;
  p_title : string;
  p_price : Z;
  p_image : string;
  p_url : string;
  p_shopify : string
}.

(** A cart line, the object literal pushed by [addToCart]:
    [{ id, title, price, qty, img, variant }].  [ci_title] is [None] when
    the source stores [undefined] there. *)
Record CartLine := mkLine {
  ci_id : string;
  ci_title : option string;
  ci_price : Z;
  ci_qty : Z;
  ci_img : string;
  ci_variant : string
}.

Definition set_qty (it : CartLine) (q : Z) : CartLine :=
  mkLine (ci_id it) (ci_title it) (ci_price it) q (ci_img it) (ci_variant it).

#[global] Instance Product_eq_dec : EqDecision Product.
Proof. solve_decision. Defined.

#[global] Instance CartLine_eq_dec : EqDecision CartLine.
Proof. solve_decision. Defined.

(** ** JavaScript coercions used by the script *)

(** [x || d] on Numbers: [0] is falsy. *)
Definition num_or (x d : Z) : Z := if decide (x = 0) then d else x.

(** [s || d] on strings: the empty string is falsy. *)
Definition str_or (s d : string) : string := if decide (s = "") then d else s.

(** Truthiness of a string. *)
Definition truthy (s : string) : bool := bool_decide (s ≠ "").

(** White space and line terminators removed by [String.prototype.trim],
    among the code units below 256: TAB, LF, VT, FF, CR, SP and NBSP. *)
Definition isWhiteSpace (c : ascii) : bool :=
  bool_decide (nat_of_ascii c ∈ [9; 10; 11; 12; 13; 32; 160]%nat).

Fixpoint trimStart (s : string) : string :=
  match s with
  | String c s' => if isWhiteSpace c then trimStart s' else s
  | EmptyString => EmptyString
  end.

Definition trim (s : string) : string :=
  String.rev (trimStart (String.rev (trimStart s))).

(** Every character of the string is white space (so also: empty). *)
Fixpoint isBlank (s : string) : bool :=
  match s with
  | EmptyString => true
  | String c s' => isWhiteSpace c && isBlank s'
  end.

(** The decimal rendering of an integer-valued Number in a template
    literal or in [innerText]. *)
Definition Number_toString (n : Z) : string := pretty n.

(** [Array.prototype.join] on an array of strings. *)
Definition join (sep : string) (parts : list string) : string :=
  String.concat sep parts.

(** ** Configuration and static catalog *)

Definition SHOP_DOMAIN : string := "desak-sak.myshopify.com".

Definition PRODUCTS : list Product := [
  mkProduct "101" "Unisex Hoodie" 1099
    "https://desak-sak.myshopify.com/cdn/shop/files/Back_2_c_10_584ee972-23d2-4339-b7af-61cba4019ebb.jpg?v=1763120934&width=832"
    "https://desak-sak.myshopify.com/products/unisex-hoodie-5?variant=58376455094353" "";
  mkProduct "102" "Oslo Grey Hoodie" 1399
    "https://via.placeholder.com/800x1000?text=Oslo+Grey+Hoodie"
    "https://desak-sak.myshopify.com/products/oslo-grey-hoodie" "";
  mkProduct "103" "Arctic White Hoodie" 1499
    "https://via.placeholder.com/800x1000?text=Arctic+White+Hoodie"
    "https://desak-sak.myshopify.com/products/arctic-white-hoodie" "";
  mkProduct "201" "Classic Grey Hoodie" 1299
    "https://via.placeholder.com/800x1000?text=Classic+Grey+Hoodie"
    "https://desak-sak.myshopify.com/products/classic-grey-hoodie" "";
  mkProduct "202" "Beige Fleece Hoodie" 2499
    "https://via.placeholder.com/800x1000?text=Beige+Fleece+Hoodie"
    "https://desak-sak.myshopify.com/products/beige-fleece-hoodie" "";
  mkProduct "203" "Black Oversized Hoodie" 2199
    "https://via.placeholder.com/800x1000?text=Black+Oversized+Hoodie"
    "https://desak-sak.myshopify.com/products/black-oversized-hoodie" "";
  mkProduct "204" "Urban Zip Hoodie" 1899
    "https://via.placeholder.com/800x1000?text=Urban+Zip+Hoodie"
    "https://desak-sak.myshopify.com/products/urban-zip-hoodie" "";
  mkProduct "301" "Milan Beige Sweatshirt" 999
    "https://via.placeholder.com/800x1000?text=Milan+Beige+Sweatshirt"
    "https://desak-sak.myshopify.com/products/milan-beige-sweatshirt" "";
  mkProduct "302" "Harbor Navy Sweatshirt" 1099
    "https://via.placeholder.com/800x1000?text=Harbor+Navy+Sweatshirt"
    "https://desak-sak.myshopify.com/products/harbor-navy-sweatshirt" "";
  mkProduct "401" "Arctic Wool Scarf" 699
    "https://via.placeholder.com/800x1000?text=Arctic+Wool+Scarf"
    "https://desak-sak.myshopify.com/products/arctic-wool-scarf" "";
  mkProduct "402" "Nordic Winter Scarf" 799
    "https://via.placeholder.com/800x1000?text=Nordic+Winter+Scarf"
    "https://desak-sak.myshopify.com/products/nordic-winter-scarf" ""
].

(** The first loop of [buildProductsIndex]:
    [PRODUCTS.forEach(p => PRODUCTS_INDEX[String(p.id)] = { ...p })],
    starting from the empty object.  (The second loop overlays the product
    cards found in the page; the index is a parameter of every operation
    below, so any page is covered.) *)
Definition seedProductsIndex (ps : list Product) : gmap string Product :=
  foldl (λ idx p, <[p_id p := p]> idx) ∅ ps.

(** ** Reading [PRODUCTS_INDEX[key]]

    [PRODUCTS_INDEX] is created by the literal [{}], so a read of a key
    that is not an own property continues along the prototype chain to
    [Object.prototype].  The map holds the own properties. *)

Definition Object_prototype_keys : list string := [
  "constructor"; "hasOwnProperty"; "isPrototypeOf"; "propertyIsEnumerable";
  "toLocaleString"; "toString"; "valueOf"; "__proto__";
  "__defineGetter__"; "__defineSetter__"; "__lookupGetter__";
  "__lookupSetter__"
].

Inductive IndexRead :=
  | Own (p : Product)   (* an entry of the catalog index *)
  | Inherited           (* a member of Object.prototype: truthy, and its
                           title, price, image and shopify are undefined *)
  | Undefined.          (* undefined *)

Definition index_get (idx : gmap string Product) (key : string) : IndexRead :=
  match idx !! key with
  | Some p => Own p
  | None => if decide (key ∈ Object_prototype_keys) then Inherited else Undefined
  end.

(** ** Cart operations *)

(** [CART.find(it => String(it.id) === String(id))] and
    [CART.findIndex(...)] with the same callback: the first matching line
    together with its index. *)
Definition findCartItem (id : string) (CART : list CartLine)
  : option (nat * CartLine) :=
  list_find (λ it, ci_id it = id) CART.

(** The object literal pushed by [addToCart] for the value [p] read from
    the index. *)
Definition newLine (id : string) (p : IndexRead) (qty : Z) : CartLine :=
  match p with
  | Own p =>
      mkLine id (Some (p_title p)) (num_or (p_price p) 0) (num_or qty 1)
             (str_or (p_image p) "") (str_or (p_shopify p) "")
  | Inherited | Undefined =>
      (* p.title is undefined; Number(undefined || 0) is 0 *)
      mkLine id None 0 (num_or qty 1) "" ""
  end.

Definition addToCart (idx : gmap string Product) (id : string) (qty : Z)
    (CART : list CartLine) : list CartLine :=
  match index_get idx id with
  | Undefined => CART (* console.warn("Product not found:", id); return *)
  | (Own _ | Inherited) as p =>
      match findCartItem id CART with
      | Some (i, existing) => <[i := set_qty existing (ci_qty existing + qty)]> CART
      | None => CART ++ [newLine id p qty]
      end
  end.

Definition removeCartItem (id : string) (CART : list CartLine) : list CartLine :=
  filter (λ it, ci_id it ≠ id) CART.

Definition changeCartQty (id : string) (delta : Z) (CART : list CartLine)
  : list CartLine :=
  match findCartItem id CART with
  | None => CART
  | Some (i, it) =>
      let q := ci_qty it + delta in
      let CART' := <[i := set_qty it q]> CART in
      if decide (q ≤ 0) then delete i CART' else CART'
  end.

(** [clearCart]: [confirmed] is the answer of
    [confirm("Remove all items from cart?")]. *)
Definition clearCart (confirmed : bool) (CART : list CartLine) : list CartLine :=
  if confirmed then [] else CART.

(** ** Wishlist operations *)

Definition isWishlisted (id : string) (WISHLIST : list string) : bool :=
  bool_decide (id ∈ WISHLIST).

Definition toggleWishlist (id : string) (WISHLIST : list string) : list string :=
  if isWishlisted id WISHLIST
  then filter (λ x, x ≠ id) WISHLIST
  else WISHLIST ++ [id].

(** ** The subtotal shown by [renderCartDrawer] *)

(** Which of the DOM references read by [renderCartDrawer] are present:
    [DOM.cartItems] and [DOM.cartSubtotal]. *)
Record Dom := mkDom { cartItems : bool; cartSubtotal : bool }.

(** The running sum of the [forEach] loop:
    [subtotal += Number(item.price || 0) * Number(item.qty || 0)]. *)
Definition subtotal_loop (CART : list CartLine) : Z :=
  foldl (λ subtotal item,
           subtotal + num_or (ci_price item) 0 * num_or (ci_qty item) 0)
        0 CART.

(** The text that a call of [renderCartDrawer] assigns to
    [DOM.cartSubtotal.innerText]; [None] when the call assigns nothing. *)
Definition renderCartDrawer (dom : Dom) (CART : list CartLine) : option string :=
  if negb (cartItems dom) then None
  else
    match CART with
    | [] => if cartSubtotal dom then Some "0" else None
    | _ =>
        let subtotal := subtotal_loop CART in
        if cartSubtotal dom then Some (Number_toString subtotal) else None
    end.

(** The subtotal in the words of the specification: the sum over all lines
    of price times quantity. *)
Definition spec_subtotal (CART : list CartLine) : Z :=
  foldr (λ item acc, ci_price item * ci_qty item + acc) 0 CART.

(** ** The checkout link *)

(** [ci.variant || (PRODUCTS_INDEX[ci.id] && PRODUCTS_INDEX[ci.id].shopify) || ""] *)
Definition resolveVariant (idx : gmap string Product) (ci : CartLine) : string :=
  str_or
    (str_or (ci_variant ci)
       (match index_get idx (ci_id ci) with
        | Own p => p_shopify p
        | _ => ""   (* undefined, falsy *)
        end))
    "".

(** The test [variant && String(variant).trim()]. *)
Definition usableVariant (variant : string) : bool :=
  truthy variant && truthy (trim variant).

(** A line has a variant reference, as the source decides it. *)
Definition hasVariantRef (idx : gmap string Product) (ci : CartLine) : bool :=
  usableVariant (resolveVariant idx ci).

(** The [pairs] array after the [forEach] loop. *)
Definition checkoutPairs (idx : gmap string Product) (CART : list CartLine)
  : list string :=
  foldl (λ pairs ci,
           let variant := resolveVariant idx ci in
           if usableVariant variant
           then pairs ++ [variant +:+ ":" +:+ Number_toString (ci_qty ci)]
           else pairs)
        [] CART.

Definition buildShopifyCheckoutURL (idx : gmap string Product)
    (CART : list CartLine) : string :=
  match CART with
  | [] => ""
  | _ =>
      let pairs := checkoutPairs idx CART in
      if decide (length pairs ≠ 0%nat)
      then "https://" +:+ SHOP_DOMAIN +:+ "/cart/" +:+ join "," pairs
      else "https://" +:+ SHOP_DOMAIN
  end.

(** The bare store origin. *)
Definition storeOrigin : string := "https://" +:+ SHOP_DOMAIN.

(** The pairs in the words of the specification, for a chosen notion of
    "has a variant reference": one [variantRef:qty] pair for exactly the
    lines that have one, in cart order. *)
Definition spec_pairs (ref : CartLine → string) (has_ref : CartLine → bool)
    (CART : list CartLine) : list string :=
  (λ ci, ref ci +:+ ":" +:+ Number_toString (ci_qty ci))
    <$> filter (λ ci, has_ref ci = true) CART.


(** ** Loading the persisted lists *)

Definition CART_KEY : string := "desak_desak_cart_v2".
Definition WISHLIST_KEY : string := "desak_desak_wishlist_v2".

(** A value produced by [JSON.parse].  A number is kept as the decimal
    [mantissa * 10 ^ exponent]. *)
#[warnings="-register-all"]
Inductive JSON :=
  | JNull
  | JBool (b : bool)
  | JNum (mantissa exponent : Z)
  | JStr (s : string)
  | JArr (items : list JSON)
  | JObj (members : list (string * JSON)).

Definition Array_isArray (v : JSON) : bool :=
  match v with JArr _ => true | _ => false end.

(** Outcome of evaluating an expression: a value, or a thrown exception. *)
Inductive Completion (A : Type) :=
  | Normal (a : A)
  | Throw (e : string).
Arguments Normal {A} a.
Arguments Throw {A} e.

(** [try { body } catch (e) { handler }] *)
Definition try_catch {A} (body : Completion A) (handler : string → Completion A)
  : Completion A :=
  match body with
  | Normal a => Normal a
  | Throw e => handler e
  end.

Section Loader.
(** [JSON.parse] of the browser: a value, or a [SyntaxError]. *)
Variable JSON_parse : string → Completion JSON.
(** The entries of [localStorage]; [getItem] of a missing key is [null]. *)
Variable localStorage : gmap string string.

Definition safeJSON (s : string) (fallback : JSON) : Completion JSON :=
  try_catch (JSON_parse s) (λ _, Normal fallback).

Definition loadJSON (k : string) (fallback : JSON) : Completion JSON :=
  match localStorage !! k with
  | None => Normal fallback
  | Some raw => safeJSON raw fallback
  end.

(** [let X = loadJSON(key, []); if (!Array.isArray(X)) X = [];] *)
Definition loadList (key : string) : Completion JSON :=
  match loadJSON key (JArr []) with
  | Normal v => if negb (Array_isArray v) then Normal (JArr []) else Normal v
  | Throw e => Throw e
  end.

Definition initCART : Completion JSON := loadList CART_KEY.
Definition initWISHLIST : Completion JSON := loadList WISHLIST_KEY.

(** The stored raw value is absent, or does not decode to a sequence. *)
Definition undecodable (raw : option string) : Prop :=
  raw = None
  ∨ (∃ s e, raw = Some s ∧ JSON_parse s = Throw e)
  ∨ (∃ s v, raw = Some s ∧ JSON_parse s = Normal v
            ∧ Array_isArray v = false).
End Loader.

(** A fragment of [JSON.parse], enough to run the loader on examples. *)
Definition sample_parse (s : string) : Completion JSON :=
  if decide (s = "[]") then Normal (JArr [])
  else if decide (s = "null") then Normal JNull
  else if decide (s = "{}") then Normal (JObj [])
  else if decide (s = "[101]") then Normal (JArr [JNum 101 0])
  else Throw "SyntaxError".

(** ** Sequences of operations on the whole state *)

Record State := mkState { CART : list CartLine; WISHLIST : list string }.

Inductive Op :=
  | OpAddToCart (id : string) (qty : Z)
  | OpRemoveCartItem (id : string)
  | OpChangeCartQty (id : string) (delta : Z)
  | OpToggleWishlist (id : string).

Definition step (idx : gmap string Product) (s : State) (op : Op) : State :=
  match op with
  | OpAddToCart id qty => mkState (addToCart idx id qty (CART s)) (WISHLIST s)
  | OpRemoveCartItem id => mkState (removeCartItem id (CART s)) (WISHLIST s)
  | OpChangeCartQty id delta => mkState (changeCartQty id delta (CART s)) (WISHLIST s)
  | OpToggleWishlist id => mkState (CART s) (toggleWishlist id (WISHLIST s))
  end.

Definition run (idx : gmap string Product) (ops : list Op) (s : State) : State :=
  foldl (step idx) s ops.

(** No two cart lines with the same id, no two wishlist entries with the
    same id. *)
Definition duplicate_free (s : State) : Prop :=
  NoDup (ci_id <$> CART s) ∧ NoDup (WISHLIST s).

(** ** Escaping text for markup *)

(** [s.replace(/c/g, by)] for a one-character pattern [c] and a replacement
    without [$]: every occurrence of the character is replaced, left to
    right. *)
Fixpoint replaceAll (c : ascii) (by_ : string) (s : string) : string :=
  match s with
  | EmptyString => EmptyString
  | String x s' =>
      if decide (x = c) then by_ +:+ replaceAll c by_ s'
      else String x (replaceAll c by_ s')
  end.

(** [escapeHtml]: [String(s || "")], then the three replacements in the
    order of the source.  [None] is [undefined]. *)
Definition escapeHtml (s : option string) : string :=
  let text := match s with Some s => str_or s "" | None => "" end in
  replaceAll ">" "&gt;" (replaceAll "<" "&lt;" (replaceAll "&" "&amp;" text)).

(** What one character becomes, read in a single pass. *)
Definition escapeChar (c : ascii) : string :=
  if decide (c = "&"%char) then "&amp;"
  else if decide (c = "<"%char) then "&lt;"
  else if decide (c = ">"%char) then "&gt;"
  else String c EmptyString.

Fixpoint escapeCharwise (s : string) : string :=
  match s with
  | EmptyString => EmptyString
  | String c s' => escapeChar c +:+ escapeCharwise s'
  end.

(** The characters of a string, in order. *)
Fixpoint chars (s : string) : list ascii :=
  match s with
  | EmptyString => []
  | String c s' => c :: chars s'
  end.

(** ** The cart badge *)

(** [CART.reduce((s, it) => s + Number(it.qty || 0), 0)] *)
Definition cartCount (CART : list CartLine) : Z :=
  foldl (λ s it, s + num_or (ci_qty it) 0) 0 CART.

(** The unit price that [addToCart] charges for one more piece: the price
    stored in the line when the cart has one for the id, else the price of
    the index entry. *)
Definition unitPrice (id : string) (cart : list CartLine) (p : Product) : Z :=
  match findCartItem id cart with
  | Some (_, it) => ci_price it
  | None => p_price p
  end.

(** What [updateCartCount] does to the badge. *)
Inductive Badge :=
  | BadgeShown (text : string)   (* display: inline-block, innerText = total *)
  | BadgeHidden.                 (* display: none *)

(** [updateCartCount]; [badge] tells whether the badge element exists.
    [None]: the function returns without touching anything. *)
Definition updateCartCount (badge : bool) (CART : list CartLine) : option Badge :=
  if negb badge then None
  else
    let total := cartCount CART in
    if decide (0 < total) then Some (BadgeShown (Number_toString total))
    else Some BadgeHidden.

(** ** Going to the checkout *)

(** [hay.includes(needle)] *)
Fixpoint includes (needle hay : string) : bool :=
  String.prefix needle hay ||
  match hay with
  | EmptyString => false
  | String _ hay' => includes needle hay'
  end.

Inductive CheckoutOutcome :=
  | CheckoutAlert (message : string)   (* alert(...), nothing else *)
  | CheckoutNavigate (url : string)    (* window.location.href = url *)
  | CheckoutStay.                      (* the confirm was declined *)

(** [proceedToCheckout]; [confirmed] is the answer of the [confirm] that asks
    whether to continue to the store homepage.  The summary written to the
    clipboard before that question (inside its own try/catch) changes
    neither the state nor the control flow. *)
Definition proceedToCheckout (idx : gmap string Product) (confirmed : bool)
    (CART : list CartLine) : CheckoutOutcome :=
  match CART with
  | [] => CheckoutAlert "Your cart is empty."
  | _ =>
      let url := buildShopifyCheckoutURL idx CART in
      if includes "/cart/" url then CheckoutNavigate url
      else if negb confirmed then CheckoutStay
      else CheckoutNavigate ("https://" +:+ SHOP_DOMAIN)
  end.

(** ** Saving *)

(** The value that [JSON.stringify] sees for a cart line: the members in
    the order of the object literal; a member whose value is [undefined] is
    left out. *)
Definition encodeLine (it : CartLine) : JSON :=
  JObj ([("id", JStr (ci_id it))]
        ++ match ci_title it with
           | Some t => [("title", JStr t)]
           | None => []
           end
        ++ [("price", JNum (ci_price it) 0);
            ("qty", JNum (ci_qty it) 0);
            ("img", JStr (ci_img it));
            ("variant", JStr (ci_variant it))]).

Definition encodeCart (CART : list CartLine) : JSON := JArr (encodeLine <$> CART).

Definition encodeWishlist (WISHLIST : list string) : JSON := JArr (JStr <$> WISHLIST).

Section Saver.
(** [JSON.stringify] of the browser: a string, or an exception. *)
Variable JSON_stringify : JSON → Completion string.
(** Whether [localStorage.setItem(k, s)] is accepted in the given storage;
    when it is not, it throws (quota exceeded) and stores nothing. *)
Variable quota : gmap string string → string → string → bool.

Definition setItem (localStorage : gmap string string) (k s : string)
  : Completion (gmap string string) :=
  if quota localStorage k s then Normal (<[k := s]> localStorage)
  else Throw "QuotaExceededError".

(** [saveJSON]: the storage after the call.  A failure is caught and only
    logged. *)
Definition saveJSON (k : string) (v : JSON) (localStorage : gmap string string)
  : gmap string string :=
  match
    try_catch
      (match JSON_stringify v with
       | Normal s => setItem localStorage k s
       | Throw e => Throw e
       end)
      (λ _, Normal localStorage (* console.warn("ls fail", e) *))
  with
  | Normal localStorage' => localStorage'
  | Throw _ => localStorage
  end.

Definition saveCart (CART : list CartLine) (localStorage : gmap string string)
  : gmap string string :=
  saveJSON CART_KEY (encodeCart CART) localStorage.

Definition saveWishlist (WISHLIST : list string)
    (localStorage : gmap string string) : gmap string string :=
  saveJSON WISHLIST_KEY (encodeWishlist WISHLIST) localStorage.
End Saver.

(** A fragment of [JSON.stringify], the inverse of [sample_parse]. *)
Definition sample_stringify (v : JSON) : Completion string :=
  match v with
  | JArr [] => Normal "[]"
  | JNull => Normal "null"
  | JObj [] => Normal "{}"
  | JArr [JNum 101 0] => Normal "[101]"
  | _ => Throw "TypeError"
  end.

(** ** The event handlers of [bindEvents] *)

(** The value of a [data-id] attribute passed through [String(...)]: a
    missing attribute reads as [null]. *)
Definition attr_String (a : option string) : string :=
  match a with Some s => s | None => "null" end.

(** Truthiness of an attribute value: missing and empty are falsy. *)
Definition attr_truthy (a : option string) : bool :=
  match a with Some s => truthy s | None => false end.

(** [a || b] on attribute values. *)
Definition attr_or (a b : option string) : option string :=
  if attr_truthy a then a else b.

(** A click, with what the handler reads from the element it finds by
    [closest]: the [data-id] of the button or of the enclosing product card
    ([None] when the element or the attribute is missing), and the answer
    to the [confirm] that the handler raises. *)
Inductive UIEvent :=
  | ClickHeart (card_id : option string)
  | ClickCartBtn (btn_id card_id : option string)
  | ClickCartDec (data_id : option string)
  | ClickCartInc (data_id : option string)
  | ClickCartRemove (data_id : option string) (confirmed : bool)
  | ClickClearCart (confirmed : bool)
  | ClickAddFromWishlist (data_id : option string)
  | ClickRemoveFromWishlist (data_id : option string)
  | ClickCheckoutNow (confirmed : bool).

Definition handle (idx : gmap string Product) (s : State) (ev : UIEvent) : State :=
  match ev with
  | ClickHeart card_id =>
      if negb (attr_truthy card_id) then s
      else mkState (CART s) (toggleWishlist (attr_String card_id) (WISHLIST s))
  | ClickCartBtn btn_id card_id =>
      let id := attr_or btn_id card_id in
      if negb (attr_truthy id) then s (* console.warn, return *)
      else mkState (addToCart idx (attr_String id) 1 (CART s)) (WISHLIST s)
  | ClickCartDec data_id =>
      mkState (changeCartQty (attr_String data_id) (-1) (CART s)) (WISHLIST s)
  | ClickCartInc data_id =>
      mkState (changeCartQty (attr_String data_id) 1 (CART s)) (WISHLIST s)
  | ClickCartRemove data_id confirmed =>
      if confirmed
      then mkState (removeCartItem (attr_String data_id) (CART s)) (WISHLIST s)
      else s
  | ClickClearCart confirmed => mkState (clearCart confirmed (CART s)) (WISHLIST s)
  | ClickAddFromWishlist data_id =>
      if attr_truthy data_id
      then mkState (addToCart idx (attr_String data_id) 1 (CART s))
                   (filter (λ x, x ≠ attr_String data_id) (WISHLIST s))
      else s
  | ClickRemoveFromWishlist data_id =>
      if attr_truthy data_id
      then mkState (CART s) (filter (λ x, x ≠ attr_String data_id) (WISHLIST s))
      else s
  | ClickCheckoutNow _ => s
  end.

Definition handleAll (idx : gmap string Product) (evs : list UIEvent)
    (s : State) : State :=
  foldl (handle idx) s evs.

(** Every cart line has a quantity of at least 1. *)
Definition positive_quantities (cart : list CartLine) : Prop :=
  Forall (λ it, 1 ≤ ci_qty it) cart.

(** An operation whose quantity, if it carries one to add, is at least 1
    (every call of [addToCart] in the script passes 1). *)
Definition quantity_in_range (op : Op) : Prop :=
  match op with
  | OpAddToCart _ qty => 1 ≤ qty
  | _ => True
  end.

(** * Properties *)

(** ** Facts about the search for a cart line *)

Lemma findCartItem_Some id CART i it :
  findCartItem id CART = Some (i, it) →
  CART !! i = Some it ∧ ci_id it = id.
Proof.
  unfold findCartItem. intros H%list_find_Some. tauto.
Qed.

Lemma findCartItem_None id CART :
  findCartItem id CART = None ↔ id ∉ ci_id <$> CART.
Proof.
  unfold findCartItem. rewrite list_find_None, Forall_forall.
  rewrite list_elem_of_fmap. split.
  - intros H (it & -> & Hin). by apply (H it).
  - intros H it Hin Heq. apply H. by exists it.
Qed.

(** The first matching line splits the cart in a prefix without the id,
    the line, and the rest. *)
Lemma findCartItem_split id CART i it :
  findCartItem id CART = Some (i, it) →
  ∃ pre post, CART = pre ++ it :: post ∧ length pre = i ∧
              ci_id it = id ∧ id ∉ ci_id <$> pre.
Proof.
  unfold findCartItem. intros (Hi & Hid & Hleast)%list_find_Some.
  exists (take i CART), (drop (S i) CART). split_and!.
  - by rewrite take_drop_middle.
  - apply length_take_le. apply lookup_lt_Some in Hi. lia.
  - done.
  - rewrite list_elem_of_fmap. intros (y & Hy & Hin).
    apply list_elem_of_lookup in Hin as [j Hj].
    pose proof (lookup_lt_Some _ _ _ Hj) as Hlt. rewrite length_take in Hlt.
    rewrite lookup_take_lt in Hj by lia.
    apply (Hleast j y); [done | lia | done].
Qed.

Lemma findCartItem_app_fresh id pre it post :
  ci_id it = id → id ∉ ci_id <$> pre →
  findCartItem id (pre ++ it :: post) = Some (length pre, it).
Proof.
  intros Hid Hpre. unfold findCartItem. apply list_find_Some. split_and!.
  - by rewrite list_lookup_middle.
  - done.
  - intros j y Hj Hlt Hy. apply Hpre. rewrite list_elem_of_fmap.
    exists y. split; [done|]. rewrite lookup_app_l in Hj by done.
    by eapply list_elem_of_lookup_2.
Qed.

(** Writing a new quantity into a line keeps the sequence of ids. *)
Lemma ids_set_qty (CART : list CartLine) i it q :
  CART !! i = Some it →
  ci_id <$> <[i := set_qty it q]> CART = ci_id <$> CART.
Proof.
  intros Hi. rewrite list_fmap_insert. simpl.
  apply list_insert_id. by rewrite list_lookup_fmap, Hi.
Qed.

Lemma newLine_id id p qty : ci_id (newLine id p qty) = id.
Proof. by destruct p. Qed.

(** ** Each operation keeps the ids of the cart distinct *)

Section DuplicateFree.
Variable idx : gmap string Product.

Lemma addToCart_NoDup id qty (cart : list CartLine) :
  NoDup (ci_id <$> cart) → NoDup (ci_id <$> addToCart idx id qty cart).
Proof.
  intros Hnd. unfold addToCart.
  destruct (index_get idx id) as [p| |]; [| |done];
    (destruct (findCartItem id cart) as [[i existing]|] eqn:Hfind;
     [ apply findCartItem_Some in Hfind as [Hi _];
       by rewrite (ids_set_qty _ _ _ _ Hi)
     | apply findCartItem_None in Hfind;
       rewrite fmap_app; simpl; apply NoDup_app; split_and!;
       [ done
       | intros x Hx ->%list_elem_of_singleton; by apply Hfind
       | apply NoDup_singleton ] ]).
Qed.

Lemma removeCartItem_NoDup id (cart : list CartLine) :
  NoDup (ci_id <$> cart) → NoDup (ci_id <$> removeCartItem id cart).
Proof.
  intros Hnd. eapply sublist_NoDup; [exact Hnd|].
  apply fmap_sublist, sublist_filter.
Qed.

Lemma changeCartQty_NoDup id delta (cart : list CartLine) :
  NoDup (ci_id <$> cart) → NoDup (ci_id <$> changeCartQty id delta cart).
Proof.
  intros Hnd. unfold changeCartQty.
  destruct (findCartItem id cart) as [[i it]|] eqn:Hfind; [|done].
  apply findCartItem_Some in Hfind as [Hi _]. simpl.
  case_decide.
  - rewrite list_fmap_delete, (ids_set_qty _ _ _ _ Hi).
    eapply sublist_NoDup; [exact Hnd|]. apply sublist_delete.
  - by rewrite (ids_set_qty _ _ _ _ Hi).
Qed.

Lemma toggleWishlist_NoDup id (wishlist : list string) :
  NoDup wishlist → NoDup (toggleWishlist id wishlist).
Proof.
  intros Hnd. unfold toggleWishlist, isWishlisted.
  case_bool_decide as Hin.
  - by apply NoDup_filter.
  - apply NoDup_app. split_and!; [done | | apply NoDup_singleton].
    intros x Hx ->%list_elem_of_singleton. by apply Hin.
Qed.

Lemma step_duplicate_free s op :
  duplicate_free s → duplicate_free (step idx s op).
Proof.
  intros [Hc Hw]. destruct op; split; simpl;
    auto using addToCart_NoDup, removeCartItem_NoDup,
               changeCartQty_NoDup, toggleWishlist_NoDup.
Qed.
End DuplicateFree.

(** C1.  Starting from a state without duplicates, after any sequence of
    [addToCart], [removeCartItem], [changeCartQty] and [toggleWishlist]
    calls the cart has no two lines with the same product id and the
    wishlist has no two entries with the same product id. *)
Theorem run_duplicate_free (idx : gmap string Product) (ops : list Op) (s : State) :
  duplicate_free s → duplicate_free (run idx ops s).
Proof.
  unfold run. revert s.
  induction ops as [|op ops IH]; intros s Hs; simpl; [done|].
  apply IH. by apply step_duplicate_free.
Qed.

Lemma run_duplicate_free_witness :
  duplicate_free
    (run (seedProductsIndex PRODUCTS)
         [OpAddToCart "101" 1; OpAddToCart "202" 4; OpAddToCart "101" 2;
          OpToggleWishlist "201"; OpChangeCartQty "202" (-1);
          OpToggleWishlist "301"; OpToggleWishlist "201";
          OpRemoveCartItem "101"; OpAddToCart "constructor" 1]
         (mkState [] [])).
Proof.
  apply run_duplicate_free. split; simpl; apply NoDup_nil_2.
Defined.

(** ** The subtotal *)

Lemma num_or_0 x : num_or x 0 = x.
Proof. unfold num_or. by case_decide. Qed.

Lemma num_or_positive x d : 1 ≤ x → num_or x d = x.
Proof. unfold num_or. case_decide; [lia | done]. Qed.

Lemma str_or_empty s : str_or s "" = s.
Proof. unfold str_or. by case_decide. Qed.

(** The loop of [renderCartDrawer], started from any running sum. *)
Lemma subtotal_foldl (cart : list CartLine) (acc : Z) :
  foldl (λ subtotal item,
           subtotal + num_or (ci_price item) 0 * num_or (ci_qty item) 0)
        acc cart
  = acc + spec_subtotal cart.
Proof.
  revert acc. induction cart as [|item cart IH]; intros acc; simpl.
  - lia.
  - rewrite IH, !num_or_0. lia.
Qed.

Lemma subtotal_loop_spec (cart : list CartLine) :
  subtotal_loop cart = spec_subtotal cart.
Proof. unfold subtotal_loop. by rewrite subtotal_foldl. Qed.

Lemma index_get_own idx key p : idx !! key = Some p → index_get idx key = Own p.
Proof. unfold index_get. by intros ->. Qed.

(** C2.  The text that [renderCartDrawer] writes into the subtotal element
    is the decimal rendering of the sum over all cart lines of price times
    quantity (nothing is written when the drawer elements are missing); the
    sum is 0, shown as the text 0, for the empty cart.  With product 101 at
    price 1099 in the index, [addToCart("101", 1)] followed by
    [addToCart("101", 2)] on the empty cart gives exactly one line, with id
    101 and quantity 3, and the subtotal 3297. *)
Theorem subtotal_displayed :
  (∀ (dom : Dom) (cart : list CartLine),
     renderCartDrawer dom cart =
       if cartItems dom && cartSubtotal dom
       then Some (Number_toString (spec_subtotal cart))
       else None)
  ∧ spec_subtotal [] = 0
  ∧ renderCartDrawer (mkDom true true) [] = Some "0"
  ∧ (∀ (idx : gmap string Product) (p : Product),
       idx !! "101" = Some p → p_price p = 1099 →
       let cart := addToCart idx "101" 2 (addToCart idx "101" 1 []) in
       (∃ line, cart = [line] ∧ ci_id line = "101" ∧ ci_qty line = 3)
       ∧ spec_subtotal cart = 3297
       ∧ renderCartDrawer (mkDom true true) cart = Some "3297").
Proof.
  assert (Hgen : ∀ (dom : Dom) (cart : list CartLine),
     renderCartDrawer dom cart =
       if cartItems dom && cartSubtotal dom
       then Some (Number_toString (spec_subtotal cart))
       else None).
  { intros [items sub] cart. unfold renderCartDrawer. simpl.
    destruct items, sub, cart as [|item cart]; simpl; try done.
    by rewrite subtotal_loop_spec. }
  split_and!; [exact Hgen | done | done |].
  intros idx p Hp Hprice cart.
  assert (Hcart : cart =
    [mkLine "101" (Some (p_title p)) 1099 3 (p_image p) (p_shopify p)]).
  { subst cart. unfold addToCart. rewrite (index_get_own _ _ _ Hp).
    cbn. unfold set_qty. cbn. rewrite Hprice, str_or_empty, str_or_empty.
    reflexivity. }
  rewrite Hcart. split_and!.
  - eexists. split_and!; reflexivity.
  - reflexivity.
  - reflexivity.
Qed.

Lemma subtotal_displayed_witness :
  let idx := seedProductsIndex PRODUCTS in
  let cart := addToCart idx "101" 2 (addToCart idx "101" 1 []) in
  (∃ line, cart = [line] ∧ ci_id line = "101" ∧ ci_qty line = 3)
  ∧ spec_subtotal cart = 3297
  ∧ renderCartDrawer (mkDom true true) cart = Some "3297".
Proof.
  destruct subtotal_displayed as (_ & _ & _ & Hscenario).
  apply (Hscenario (seedProductsIndex PRODUCTS)
           (mkProduct "101" "Unisex Hoodie" 1099
              "https://desak-sak.myshopify.com/cdn/shop/files/Back_2_c_10_584ee972-23d2-4339-b7af-61cba4019ebb.jpg?v=1763120934&width=832"
              "https://desak-sak.myshopify.com/products/unisex-hoodie-5?variant=58376455094353" ""));
    vm_compute; reflexivity.
Defined.


(** ** White space: the test [variant && String(variant).trim()] *)

Lemma trimStart_empty_iff s : trimStart s = "" ↔ isBlank s = true.
Proof.
  induction s as [|c s IH]; simpl; [done|].
  destruct (isWhiteSpace c); simpl; [done|]. split; discriminate.
Qed.

Lemma isBlank_trimStart s : isBlank (trimStart s) = isBlank s.
Proof.
  induction s as [|c s IH]; simpl; [done|].
  destruct (isWhiteSpace c) eqn:Hc; simpl; [done|]. by rewrite Hc.
Qed.

Lemma isBlank_rev_app s1 s2 :
  isBlank (String.rev_app s1 s2) = isBlank s1 && isBlank s2.
Proof.
  revert s2. induction s1 as [|c s1 IH]; intros s2; simpl; [done|].
  rewrite IH. simpl. destruct (isWhiteSpace c), (isBlank s1), (isBlank s2); done.
Qed.

Lemma isBlank_rev s : isBlank (String.rev s) = isBlank s.
Proof. unfold String.rev. rewrite isBlank_rev_app. simpl. apply andb_true_r. Qed.

Lemma rev_app_empty s1 s2 : String.rev_app s1 s2 = "" → s1 = "" ∧ s2 = "".
Proof.
  revert s2. induction s1 as [|c s1 IH]; intros s2; simpl; [done|].
  intros [_ H]%IH. discriminate.
Qed.

Lemma rev_empty_iff s : String.rev s = "" ↔ s = "".
Proof.
  split; [|by intros ->]. unfold String.rev. by intros [? _]%rev_app_empty.
Qed.

Lemma trim_empty_iff s : trim s = "" ↔ isBlank s = true.
Proof.
  unfold trim.
  by rewrite rev_empty_iff, trimStart_empty_iff, isBlank_rev, isBlank_trimStart.
Qed.

(** The test of the source holds exactly for the strings that have a
    character other than white space. *)
Lemma usableVariant_not_blank variant :
  usableVariant variant = negb (isBlank variant).
Proof.
  unfold usableVariant, truthy.
  destruct (isBlank variant) eqn:Hb; simpl.
  - apply andb_false_iff. right. apply bool_decide_eq_false. intros H. apply H.
    by apply trim_empty_iff.
  - apply andb_true_iff. split; apply bool_decide_eq_true.
    + intros ->. discriminate.
    + rewrite trim_empty_iff. congruence.
Qed.

(** ** The checkout link *)

Section Checkout.
Variable idx : gmap string Product.

Lemma checkoutPairs_foldl (cart : list CartLine) (acc : list string) :
  foldl (λ pairs ci,
           let variant := resolveVariant idx ci in
           if usableVariant variant
           then pairs ++ [variant +:+ ":" +:+ Number_toString (ci_qty ci)]
           else pairs)
        acc cart
  = acc ++ spec_pairs (resolveVariant idx) (hasVariantRef idx) cart.
Proof.
  revert acc. induction cart as [|ci cart IH]; intros acc; simpl.
  - by rewrite app_nil_r.
  - rewrite IH. unfold spec_pairs, hasVariantRef.
    rewrite filter_cons. destruct (usableVariant (resolveVariant idx ci)) eqn:Hu.
    + rewrite decide_True by done. simpl. by rewrite <- app_assoc.
    + rewrite decide_False by done. done.
Qed.

Lemma checkoutPairs_spec (cart : list CartLine) :
  checkoutPairs idx cart = spec_pairs (resolveVariant idx) (hasVariantRef idx) cart.
Proof. unfold checkoutPairs. by rewrite checkoutPairs_foldl. Qed.

(** No pair is produced exactly when no line has a variant reference. *)
Lemma spec_pairs_nil (cart : list CartLine) :
  spec_pairs (resolveVariant idx) (hasVariantRef idx) cart = [] ↔
  ∀ ci, ci ∈ cart → hasVariantRef idx ci = false.
Proof.
  unfold spec_pairs. induction cart as [|c cart IH].
  - split; [|done]. intros _ ci Hin. by apply elem_of_nil in Hin.
  - rewrite filter_cons. destruct (hasVariantRef idx c) eqn:Hc.
    + rewrite decide_True by done. simpl. split; [discriminate|].
      intros Hall. specialize (Hall c (list_elem_of_here _ _)). congruence.
    + rewrite decide_False by congruence. rewrite IH. split.
      * intros Hall ci [->|Hin]%elem_of_cons; auto.
      * intros Hall ci Hin. apply Hall. by apply list_elem_of_further.
Qed.

(** The link of a non-empty cart, from the pairs. *)
Lemma buildShopifyCheckoutURL_nonempty (cart : list CartLine) :
  cart ≠ [] →
  buildShopifyCheckoutURL idx cart =
    let pairs := spec_pairs (resolveVariant idx) (hasVariantRef idx) cart in
    if decide (pairs = [])
    then storeOrigin
    else storeOrigin +:+ "/cart/" +:+ join "," pairs.
Proof.
  intros Hne. unfold buildShopifyCheckoutURL.
  destruct cart as [|c cart]; [done|].
  rewrite checkoutPairs_spec. simpl.
  destruct (spec_pairs (resolveVariant idx) (hasVariantRef idx) (c :: cart))
    as [|pair pairs] eqn:Hp; simpl; done.
Qed.
End Checkout.






Lemma cart_link_not_storeOrigin (rest : string) :
  storeOrigin +:+ "/cart/" +:+ rest ≠ storeOrigin.
Proof. unfold storeOrigin, SHOP_DOMAIN. simpl. intros H. discriminate H. Qed.

(** C10, as stated, fails on a variant reference made of white space only:
    the line resolves to a non-empty variant reference, and the source still
    returns the bare store origin (the [trim] in its test). *)
Lemma checkout_origin_blank_variant_counterexample :
  let idx := seedProductsIndex PRODUCTS in
  let ci := mkLine "101" (Some "Unisex Hoodie") 1099 1 "" " " in
  buildShopifyCheckoutURL idx [ci] = storeOrigin
  ∧ resolveVariant idx ci = " "
  ∧ resolveVariant idx ci ≠ "".
Proof. split_and!; [reflexivity | reflexivity | discriminate]. Qed.

(** C10, amended.  For the empty cart [buildShopifyCheckoutURL] returns the
    empty string, which is not the bare store origin; the bare store origin
    is returned exactly for a non-empty cart in which every line resolves to
    a variant reference without a character other than white space (empty,
    or white space only). *)
Theorem checkout_url_origin_iff (idx : gmap string Product)
    (cart : list CartLine) :
  buildShopifyCheckoutURL idx [] = ""
  ∧ buildShopifyCheckoutURL idx [] ≠ storeOrigin
  ∧ (buildShopifyCheckoutURL idx cart = storeOrigin ↔
       cart ≠ [] ∧ ∀ ci, ci ∈ cart → isBlank (resolveVariant idx ci) = true).
Proof.
  split_and!; [done | discriminate |].
  destruct (decide (cart = [])) as [->|Hne].
  { split; [discriminate | by intros [? _]]. }
  rewrite buildShopifyCheckoutURL_nonempty by done. simpl.
  assert (Hblank : ∀ ci, hasVariantRef idx ci = false ↔
                         isBlank (resolveVariant idx ci) = true).
  { intros ci. unfold hasVariantRef. rewrite usableVariant_not_blank.
    by destruct (isBlank (resolveVariant idx ci)). }
  case_decide as Hp.
  - split; [|done]. intros _. split; [done|].
    intros ci Hin. apply Hblank. by apply (proj1 (spec_pairs_nil idx cart) Hp).
  - split.
    + intros H. by apply cart_link_not_storeOrigin in H.
    + intros [_ Hall]. exfalso. apply Hp. apply spec_pairs_nil.
      intros ci Hin. apply Hblank. by apply Hall.
Qed.

(** ** Changing a quantity *)

Lemma set_qty_set_qty it q1 q2 : set_qty (set_qty it q1) q2 = set_qty it q2.
Proof. done. Qed.

Lemma set_qty_same it : set_qty it (ci_qty it) = it.
Proof. by destruct it. Qed.

(** The assignment [CART[i] = x] at a position given by a prefix. *)
Lemma insert_at_prefix {A} (pre post : list A) (old x : A) :
  <[length pre := x]> (pre ++ old :: post) = pre ++ x :: post.
Proof.
  replace (length pre) with (length pre + 0)%nat by lia.
  by rewrite insert_app_r.
Qed.

(** [changeCartQty] on a cart whose first line for [id] is [it]. *)
Lemma changeCartQty_middle id delta pre it post :
  ci_id it = id → id ∉ ci_id <$> pre →
  changeCartQty id delta (pre ++ it :: post) =
    if decide (ci_qty it + delta ≤ 0)
    then pre ++ post
    else pre ++ set_qty it (ci_qty it + delta) :: post.
Proof.
  intros Hid Hpre. unfold changeCartQty.
  rewrite (findCartItem_app_fresh id pre it post Hid Hpre). simpl.
  rewrite insert_at_prefix.
  case_decide; [|done]. by rewrite delete_middle.
Qed.

Lemma changeCartQty_absent id delta (cart : list CartLine) :
  id ∉ ci_id <$> cart → changeCartQty id delta cart = cart.
Proof.
  intros Hid%findCartItem_None. unfold changeCartQty. by rewrite Hid.
Qed.

(** A cart with a line for [id] splits at its first such line. *)
Lemma cart_split_first id (cart : list CartLine) :
  id ∈ ci_id <$> cart →
  ∃ pre it post, cart = pre ++ it :: post ∧ ci_id it = id ∧
                 id ∉ ci_id <$> pre.
Proof.
  intros Hin. destruct (findCartItem id cart) as [[i it]|] eqn:Hfind.
  - apply findCartItem_split in Hfind as (pre & post & -> & _ & Hid & Hpre).
    by exists pre, it, post.
  - by apply findCartItem_None in Hfind.
Qed.

(** C4.  On a cart with a line for [id], [changeCartQty(id, delta)] adds
    [delta] to the quantity of that line (the first one for the id): the
    line keeps its id, title, price, image and variant and its quantity
    becomes the old quantity plus [delta]; the line is removed when that
    sum is at most 0; every other line is kept in place.  On a single line
    for 101 with quantity 3, [changeCartQty("101", -5)] removes the line and
    the subtotal is then 0.  With no line for [id] the cart is unchanged. *)
Theorem changeCartQty_spec (id : string) (delta : Z) (cart : list CartLine) :
  (id ∈ ci_id <$> cart →
     ∃ pre it post,
       cart = pre ++ it :: post ∧ ci_id it = id ∧ (id ∉ ci_id <$> pre) ∧
       changeCartQty id delta cart =
         (if decide (ci_qty it + delta ≤ 0)
          then pre ++ post
          else pre ++ mkLine (ci_id it) (ci_title it) (ci_price it)
                             (ci_qty it + delta) (ci_img it) (ci_variant it)
                   :: post))
  ∧ (∀ pre it post,
       cart = pre ++ it :: post → ci_id it = id → id ∉ ci_id <$> pre →
       0 < ci_qty it + delta →
       ∃ it',
         changeCartQty id delta cart = pre ++ it' :: post
         ∧ ci_qty it' = ci_qty it + delta
         ∧ ci_id it' = ci_id it ∧ ci_title it' = ci_title it
         ∧ ci_price it' = ci_price it ∧ ci_img it' = ci_img it
         ∧ ci_variant it' = ci_variant it)
  ∧ (id ∉ ci_id <$> cart → changeCartQty id delta cart = cart)
  ∧ (∀ it, ci_id it = "101" → ci_qty it = 3 →
       changeCartQty "101" (-5) [it] = []
       ∧ spec_subtotal (changeCartQty "101" (-5) [it]) = 0
       ∧ renderCartDrawer (mkDom true true) (changeCartQty "101" (-5) [it])
           = Some "0").
Proof.
  split_and!.
  - intros (pre & it & post & -> & Hid & Hpre)%cart_split_first.
    exists pre, it, post. split_and!; [done..|].
    by apply changeCartQty_middle.
  - intros pre it post -> Hid Hpre Hpos.
    exists (mkLine (ci_id it) (ci_title it) (ci_price it)
                   (ci_qty it + delta) (ci_img it) (ci_variant it)).
    split_and!; try reflexivity.
    rewrite changeCartQty_middle by done. by rewrite decide_False by lia.
  - apply changeCartQty_absent.
  - intros it Hid Hq.
    assert (changeCartQty "101" (-5) [it] = []) as ->; [|done].
    pose proof (changeCartQty_middle "101" (-5) [] it [] Hid
                  (not_elem_of_nil _)) as Hchange.
    simpl in Hchange. rewrite Hchange, Hq. done.
Qed.

Lemma changeCartQty_spec_witness :
  let it := mkLine "101" (Some "Unisex Hoodie") 1099 3 "" "" in
  let other := mkLine "202" (Some "Beige Fleece Hoodie") 2499 1 "" "" in
  (changeCartQty "101" (-5) [it] = []
   ∧ spec_subtotal (changeCartQty "101" (-5) [it]) = 0
   ∧ renderCartDrawer (mkDom true true) (changeCartQty "101" (-5) [it])
       = Some "0")
  ∧ (∃ it',
       changeCartQty "101" 2 [other; it] = [other] ++ it' :: []
       ∧ ci_qty it' = 3 + 2
       ∧ ci_id it' = "101" ∧ ci_title it' = Some "Unisex Hoodie"
       ∧ ci_price it' = 1099 ∧ ci_img it' = "" ∧ ci_variant it' = "").
Proof.
  intros it other. split.
  - destruct (changeCartQty_spec "101" (-5) [it]) as (_ & _ & _ & Hscenario).
    apply Hscenario; reflexivity.
  - destruct (changeCartQty_spec "101" 2 [other; it]) as (_ & Hupdate & _).
    apply (Hupdate [other] it []).
    + reflexivity.
    + reflexivity.
    + simpl. intros Hin. apply elem_of_cons in Hin as [Hin|Hin].
      * discriminate Hin.
      * by apply elem_of_nil in Hin.
    + simpl. lia.
Defined.

(** ** Adding, then taking the same quantity away *)

(** For a cart in which the lines for [id] have a quantity of at least 1,
    [addToCart(id, n)] with [n ≥ 1] followed by [changeCartQty(id, -n)]
    gives the cart back. *)
Lemma add_then_change_restores_line (idx : gmap string Product) (id : string)
    (n : Z) (cart : list CartLine) :
  is_Some (idx !! id) → 1 ≤ n →
  (∀ it, it ∈ cart → ci_id it = id → 1 ≤ ci_qty it) →
  changeCartQty id (-n) (addToCart idx id n cart) = cart.
Proof.
  intros [p Hp] Hn Hqty. unfold addToCart.
  rewrite (index_get_own _ _ _ Hp).
  destruct (findCartItem id cart) as [[i existing]|] eqn:Hfind.
  - apply findCartItem_split in Hfind as (pre & post & -> & <- & Hid & Hpre).
    rewrite insert_at_prefix.
    rewrite changeCartQty_middle by done. simpl.
    assert (1 ≤ ci_qty existing) as Hq.
    { apply Hqty; [|done]. apply elem_of_app. right. apply list_elem_of_here. }
    rewrite decide_False by lia.
    replace (ci_qty existing + n + - n) with (ci_qty existing) by lia.
    by rewrite set_qty_set_qty, set_qty_same.
  - apply findCartItem_None in Hfind.
    rewrite changeCartQty_middle; [| apply newLine_id | done].
    simpl. rewrite num_or_positive by done.
    rewrite decide_True by lia. apply app_nil_r.
Qed.

(** The operations keep every quantity at 1 or more. *)

Lemma positive_set_qty (pre post : list CartLine) (it : CartLine) (q : Z) :
  positive_quantities (pre ++ it :: post) → 1 ≤ q →
  positive_quantities (pre ++ set_qty it q :: post).
Proof.
  unfold positive_quantities. rewrite !Forall_app, !Forall_cons.
  intros (Hpre & _ & Hpost) Hq. by split_and!.
Qed.

Lemma positive_drop_middle (pre post : list CartLine) (it : CartLine) :
  positive_quantities (pre ++ it :: post) → positive_quantities (pre ++ post).
Proof.
  unfold positive_quantities. rewrite !Forall_app, !Forall_cons.
  intros (Hpre & _ & Hpost). by split.
Qed.

Lemma addToCart_positive (idx : gmap string Product) (id : string) (qty : Z)
    (cart : list CartLine) :
  0 ≤ qty → positive_quantities cart →
  positive_quantities (addToCart idx id qty cart).
Proof.
  intros Hqty Hpos. unfold addToCart.
  assert (Hnew : ∀ p, positive_quantities (cart ++ [newLine id p qty])).
  { intros p. apply Forall_app. split; [done|]. apply Forall_singleton.
    assert (1 ≤ num_or qty 1) by (unfold num_or; case_decide; lia).
    by destruct p. }
  destruct (index_get idx id) as [p| |]; [| |done];
    (destruct (findCartItem id cart) as [[i it]|] eqn:Hfind; [|by apply Hnew];
     apply findCartItem_split in Hfind as (pre & post & -> & <- & _ & _);
     rewrite insert_at_prefix; apply positive_set_qty; [done|];
     unfold positive_quantities in Hpos;
     rewrite Forall_app, Forall_cons in Hpos; lia).
Qed.

(** [changeCartQty] never leaves a line with a quantity below 1 behind, by
    whatever amount the quantity is changed. *)
Lemma changeCartQty_positive (id : string) (delta : Z) (cart : list CartLine) :
  positive_quantities cart → positive_quantities (changeCartQty id delta cart).
Proof.
  intros Hpos. destruct (findCartItem id cart) as [[i it]|] eqn:Hfind.
  - apply findCartItem_split in Hfind as (pre & post & -> & _ & Hid & Hpre).
    rewrite changeCartQty_middle by done. case_decide.
    + by eapply positive_drop_middle.
    + apply positive_set_qty; [done | lia].
  - unfold changeCartQty. by rewrite Hfind.
Qed.

Lemma removeCartItem_positive (id : string) (cart : list CartLine) :
  positive_quantities cart → positive_quantities (removeCartItem id cart).
Proof.
  unfold positive_quantities, removeCartItem. rewrite !Forall_forall.
  intros Hpos it [_ Hin]%list_elem_of_filter. by apply Hpos.
Qed.

Lemma step_positive (idx : gmap string Product) (s : State) (op : Op) :
  quantity_in_range op → positive_quantities (CART s) →
  positive_quantities (CART (step idx s op)).
Proof.
  intros Hop Hpos. destruct op as [id qty|id|id delta|id]; simpl in *.
  - apply addToCart_positive; [lia | done].
  - by apply removeCartItem_positive.
  - by apply changeCartQty_positive.
  - done.
Qed.

Lemma run_positive (idx : gmap string Product) (ops : list Op) (s : State) :
  Forall quantity_in_range ops → positive_quantities (CART s) →
  positive_quantities (CART (run idx ops s)).
Proof.
  unfold run. intros Hops. revert s.
  induction Hops as [|op ops Hop _ IH]; intros s Hpos; simpl; [done|].
  apply IH. by apply step_positive.
Qed.

(** C5.  For every cart state of the script, every id of the catalog index
    and every quantity [n ≥ 1], [addToCart(id, n)] followed by
    [changeCartQty(id, -n)] restores the cart to its state before the add:
    a line created by the add is removed, a line incremented by it has its
    prior quantity again.  A cart state is a cart whose lines have a
    quantity of at least 1, as the data model has it, or any cart reached
    from such a cart (the empty cart included) by [addToCart] with
    quantities of at least 1, [removeCartItem], [changeCartQty] with any
    delta and [toggleWishlist], in any number and order. *)
Theorem add_then_change_restores (idx : gmap string Product) (id : string)
    (n : Z) (cart0 : list CartLine) (wishlist : list string) (ops : list Op) :
  positive_quantities cart0 → Forall quantity_in_range ops →
  is_Some (idx !! id) → 1 ≤ n →
  let cart := CART (run idx ops (mkState cart0 wishlist)) in
  changeCartQty id (-n) (addToCart idx id n cart) = cart.
Proof.
  intros Hpos0 Hops Hid Hn cart.
  assert (Hpos : positive_quantities cart) by by apply run_positive.
  apply add_then_change_restores_line; [done..|].
  intros it Hin _. revert it Hin. by apply Forall_forall.
Qed.

Lemma add_then_change_restores_witness :
  let idx := seedProductsIndex PRODUCTS in
  let ops := [OpAddToCart "202" 1; OpAddToCart "101" 4; OpToggleWishlist "301";
              OpChangeCartQty "101" (-1); OpAddToCart "202" 2;
              OpChangeCartQty "202" (-3)] in
  let cart := CART (run idx ops (mkState [] [])) in
  (ci_id <$> cart = ["101"] ∧ ci_qty <$> cart = [3])
  ∧ changeCartQty "101" (-2) (addToCart idx "101" 2 cart) = cart
  ∧ changeCartQty "301" (-2) (addToCart idx "301" 2 cart) = cart.
Proof.
  intros idx ops cart. split; [split; reflexivity|]. split.
  - apply (add_then_change_restores idx "101" 2 [] [] ops).
    + apply Forall_nil_2.
    + repeat constructor; simpl; lia.
    + by eexists.
    + lia.
  - apply (add_then_change_restores idx "301" 2 [] [] ops).
    + apply Forall_nil_2.
    + repeat constructor; simpl; lia.
    + by eexists.
    + lia.
Defined.

(** Below the range the script uses, the round trip is no longer the
    identity: [addToCart] with a quantity under 1 on an id without a line
    stores that quantity, and a later [changeCartQty] that lands on it
    removes the line. *)
Lemma add_then_change_below_range :
  let idx := seedProductsIndex PRODUCTS in
  let cart := addToCart idx "101" (-2) [] in
  ci_qty <$> cart = [-2]
  ∧ changeCartQty "101" (-3) (addToCart idx "101" 3 cart) = [].
Proof. split; reflexivity. Qed.

(** ** Adding an id that the catalog index does not hold *)

(** An id that is neither in the index nor a member of [Object.prototype]
    reads as [undefined], and the cart is left as it is. *)
Lemma addToCart_unknown_id (idx : gmap string Product) (id : string) (qty : Z)
    (cart : list CartLine) :
  idx !! id = None → id ∉ Object_prototype_keys →
  addToCart idx id qty cart = cart.
Proof.
  intros Hnone Hproto. unfold addToCart, index_get.
  rewrite Hnone. by rewrite decide_False.
Qed.

(** C6 at the id [constructor], which the index of the static catalog does
    not hold: [PRODUCTS_INDEX["constructor"]] reads the member inherited
    from [Object.prototype], the guard [if (!p)] does not fire, and a line is
    pushed on the cart. *)
Theorem addToCart_inherited_key :
  let idx := seedProductsIndex PRODUCTS in
  idx !! "constructor" = None
  ∧ index_get idx "constructor" = Inherited
  ∧ addToCart idx "constructor" 1 [] = [mkLine "constructor" None 0 1 "" ""]
  ∧ addToCart idx "constructor" 1 [] ≠ [].
Proof. split_and!; [reflexivity | reflexivity | reflexivity | discriminate]. Qed.

(** ** Loading *)

Section LoaderFacts.
Variable JSON_parse : string → Completion JSON.
Variable localStorage : gmap string string.

(** [loadJSON] returns to its caller for every stored value. *)
Lemma loadJSON_returns (k : string) (fallback : JSON) :
  ∃ v, loadJSON JSON_parse localStorage k fallback = Normal v.
Proof.
  unfold loadJSON, safeJSON, try_catch.
  destruct (localStorage !! k) as [raw|]; [|by eexists].
  destruct (JSON_parse raw); by eexists.
Qed.

Lemma loadJSON_absent (k : string) (fallback : JSON) :
  localStorage !! k = None →
  loadJSON JSON_parse localStorage k fallback = Normal fallback.
Proof. unfold loadJSON. by intros ->. Qed.

Lemma loadJSON_unparseable (k raw e : string) (fallback : JSON) :
  localStorage !! k = Some raw → JSON_parse raw = Throw e →
  loadJSON JSON_parse localStorage k fallback = Normal fallback.
Proof. unfold loadJSON, safeJSON, try_catch. by intros -> ->. Qed.

Lemma loadJSON_parsed (k raw : string) (v fallback : JSON) :
  localStorage !! k = Some raw → JSON_parse raw = Normal v →
  loadJSON JSON_parse localStorage k fallback = Normal v.
Proof. unfold loadJSON, safeJSON, try_catch. by intros -> ->. Qed.

Lemma loadList_undecodable (key : string) :
  undecodable JSON_parse (localStorage !! key) →
  loadList JSON_parse localStorage key = Normal (JArr []).
Proof.
  unfold loadList.
  intros [Habs | [(raw & e & Hraw & Hthrow) | (raw & v & Hraw & Hv & Harr)]].
  - by rewrite loadJSON_absent.
  - by rewrite (loadJSON_unparseable _ _ _ _ Hraw Hthrow).
  - rewrite (loadJSON_parsed _ _ _ _ Hraw Hv). by rewrite Harr.
Qed.

Lemma loadList_array (key : string) :
  ∃ items, loadList JSON_parse localStorage key = Normal (JArr items).
Proof.
  unfold loadList.
  destruct (loadJSON_returns key (JArr [])) as [v ->].
  destruct v; simpl; by eexists.
Qed.
End LoaderFacts.

(** C7.  When the value stored under the cart key (the wishlist key) is
    absent, or is a string that [JSON.parse] rejects, or parses to a value
    that is not an array, the loaded cart (wishlist) is the empty array, and
    the load returns normally; for every stored value the load returns
    normally, with an array. *)
Theorem load_defensive (JSON_parse : string → Completion JSON)
    (localStorage : gmap string string) :
  (undecodable JSON_parse (localStorage !! CART_KEY) →
     initCART JSON_parse localStorage = Normal (JArr []))
  ∧ (undecodable JSON_parse (localStorage !! WISHLIST_KEY) →
       initWISHLIST JSON_parse localStorage = Normal (JArr []))
  ∧ (∃ items, initCART JSON_parse localStorage = Normal (JArr items))
  ∧ (∃ items, initWISHLIST JSON_parse localStorage = Normal (JArr items)).
Proof.
  unfold initCART, initWISHLIST.
  split_and!; auto using loadList_undecodable, loadList_array.
Qed.

Lemma load_defensive_witness :
  initCART sample_parse {[ CART_KEY := "{oops" ]} = Normal (JArr [])
  ∧ initCART sample_parse {[ CART_KEY := "null" ]} = Normal (JArr [])
  ∧ initWISHLIST sample_parse {[ CART_KEY := "[101]" ]} = Normal (JArr []).
Proof.
  split_and!.
  - apply (load_defensive sample_parse {[ CART_KEY := "{oops" ]}).
    right. left. by exists "{oops", "SyntaxError".
  - apply (load_defensive sample_parse {[ CART_KEY := "null" ]}).
    right. right. by exists "null", JNull.
  - apply (load_defensive sample_parse {[ CART_KEY := "[101]" ]}).
    by left.
Defined.

(** ** The wishlist *)

Lemma isWishlisted_filter_ne (id x : string) (wishlist : list string) :
  isWishlisted x (filter (λ y, y ≠ id) wishlist) =
    if decide (x = id) then false else isWishlisted x wishlist.
Proof.
  unfold isWishlisted. case_decide as Hx.
  - subst. apply bool_decide_eq_false. rewrite list_elem_of_filter. tauto.
  - apply bool_decide_ext. rewrite list_elem_of_filter. tauto.
Qed.

Lemma isWishlisted_snoc (id x : string) (wishlist : list string) :
  isWishlisted x (wishlist ++ [id]) =
    if decide (x = id) then true else isWishlisted x wishlist.
Proof.
  unfold isWishlisted. case_decide as Hx.
  - subst. apply bool_decide_eq_true, elem_of_app. right.
    apply list_elem_of_here.
  - apply bool_decide_ext. rewrite elem_of_app, list_elem_of_singleton. tauto.
Qed.

(** Membership after one [toggleWishlist]: flipped for the id, kept for
    every other id. *)
Lemma isWishlisted_toggle (id x : string) (wishlist : list string) :
  isWishlisted x (toggleWishlist id wishlist) =
    if decide (x = id) then negb (isWishlisted id wishlist)
    else isWishlisted x wishlist.
Proof.
  unfold toggleWishlist.
  destruct (isWishlisted id wishlist) eqn:Hid.
  - rewrite isWishlisted_filter_ne. by case_decide.
  - rewrite isWishlisted_snoc. by case_decide.
Qed.

(** C8.  [toggleWishlist(id)] adds the id (once, at the end) when it is
    absent and removes it when it is present, and leaves the membership of
    every other id alone; applied twice, it gives back the membership of
    every id.  On the empty wishlist, a first toggle of 201 makes it
    wishlisted and a second one makes it not wishlisted. *)
Theorem toggleWishlist_twice (id : string) (wishlist : list string) :
  (isWishlisted id wishlist = false →
     toggleWishlist id wishlist = wishlist ++ [id]
     ∧ isWishlisted id (toggleWishlist id wishlist) = true)
  ∧ (isWishlisted id wishlist = true →
       isWishlisted id (toggleWishlist id wishlist) = false)
  ∧ (∀ x, x ≠ id →
       isWishlisted x (toggleWishlist id wishlist) = isWishlisted x wishlist)
  ∧ (∀ x, isWishlisted x (toggleWishlist id (toggleWishlist id wishlist))
          = isWishlisted x wishlist)
  ∧ isWishlisted "201" (toggleWishlist "201" []) = true
  ∧ isWishlisted "201" (toggleWishlist "201" (toggleWishlist "201" [])) = false.
Proof.
  split_and!.
  - intros Habs. split.
    + unfold toggleWishlist. by rewrite Habs.
    + rewrite isWishlisted_toggle, decide_True by done. by rewrite Habs.
  - intros Hpres. rewrite isWishlisted_toggle, decide_True by done.
    by rewrite Hpres.
  - intros x Hx. by rewrite isWishlisted_toggle, decide_False.
  - intros x. rewrite !isWishlisted_toggle.
    case_decide as Hx; [|done]. subst.
    rewrite decide_True by done. apply negb_involutive.
  - reflexivity.
  - reflexivity.
Qed.

Lemma toggleWishlist_twice_witness :
  (toggleWishlist "201" ["101"] = ["101"; "201"]
   ∧ isWishlisted "201" (toggleWishlist "201" ["101"]) = true)
  ∧ isWishlisted "101" (toggleWishlist "101" ["101"; "201"]) = false.
Proof.
  split.
  - destruct (toggleWishlist_twice "201" ["101"]) as (Hadd & _).
    apply Hadd. reflexivity.
  - destruct (toggleWishlist_twice "101" ["101"; "201"]) as (_ & Hrem & _).
    apply Hrem. reflexivity.
Defined.

(** ** Clearing the cart *)

(** C9, as stated, fails when the user declines the prompt that
    [clearCart] raises itself: the cart keeps its lines. *)
Lemma clearCart_declined_counterexample :
  clearCart false [mkLine "101" (Some "Unisex Hoodie") 1099 3 "" ""] ≠ [].
Proof. discriminate. Qed.

(** C9, amended.  [clearCart()] asks for confirmation itself; for every
    prior cart, it leaves the empty cart when the user accepts and the
    cart unchanged when the user declines. *)
Theorem clearCart_spec (cart : list CartLine) :
  clearCart true cart = [] ∧ clearCart false cart = cart.
Proof. done. Qed.

(** * Further properties of the script *)

(** ** [escapeHtml] *)

Lemma string_app_assoc (s1 s2 s3 : string) :
  (s1 +:+ s2) +:+ s3 = s1 +:+ (s2 +:+ s3).
Proof.
  induction s1 as [|c s1 IH]; [done|].
  change (String c ((s1 +:+ s2) +:+ s3) = String c (s1 +:+ (s2 +:+ s3))).
  by rewrite IH.
Qed.

Lemma replaceAll_app c by_ s1 s2 :
  replaceAll c by_ (s1 +:+ s2) = replaceAll c by_ s1 +:+ replaceAll c by_ s2.
Proof.
  induction s1 as [|x s1 IH]; simpl; [done|].
  case_decide; rewrite IH; [|done].
  by rewrite string_app_assoc.
Qed.

Lemma replaceAll_hit c by_ s :
  replaceAll c by_ (String c s) = by_ +:+ replaceAll c by_ s.
Proof. simpl. by rewrite decide_True. Qed.

Lemma replaceAll_miss c by_ x s :
  x ≠ c → replaceAll c by_ (String x s) = String x (replaceAll c by_ s).
Proof. intros Hx. simpl. by rewrite decide_False. Qed.

(** The three replacements in sequence amount to one pass that rewrites
    each character on its own: the ampersands written by the first
    replacement are not touched again, and no entity is escaped twice. *)
Theorem escapeHtml_charwise (s : string) :
  escapeHtml (Some s) = escapeCharwise s.
Proof.
  unfold escapeHtml. rewrite str_or_empty.
  induction s as [|c s IH]; [done|].
  change (escapeCharwise (String c s))
    with (escapeChar c +:+ escapeCharwise s).
  rewrite <- IH. unfold escapeChar.
  destruct (decide (c = "&"%char)) as [->|Hamp].
  { by rewrite replaceAll_hit, !replaceAll_app. }
  rewrite (replaceAll_miss _ _ c) by done.
  destruct (decide (c = "<"%char)) as [->|Hlt].
  { by rewrite replaceAll_hit, !replaceAll_app. }
  rewrite (replaceAll_miss _ _ c) by done.
  destruct (decide (c = ">"%char)) as [->|Hgt].
  { by rewrite replaceAll_hit. }
  by rewrite (replaceAll_miss _ _ c).
Qed.

Lemma string_app_cons (c : ascii) (s1 s2 : string) :
  String c s1 +:+ s2 = String c (s1 +:+ s2).
Proof. reflexivity. Qed.

Lemma string_app_empty (s : string) : "" +:+ s = s.
Proof. reflexivity. Qed.

Lemma chars_app (s1 s2 : string) : chars (s1 +:+ s2) = chars s1 ++ chars s2.
Proof.
  induction s1 as [|c s1 IH]; [done|].
  rewrite string_app_cons. simpl. by rewrite IH.
Qed.

Lemma escapeHtml_undefined : escapeHtml None = "".
Proof. reflexivity. Qed.

Lemma escapeCharwise_no_angle (s : string) (c : ascii) :
  c ∈ chars (escapeCharwise s) → c ≠ "<"%char ∧ c ≠ ">"%char.
Proof.
  induction s as [|x s IH]; simpl.
  - by intros ?%elem_of_nil.
  - rewrite chars_app, elem_of_app. intros [Hc|Hc]; [|by apply IH].
    unfold escapeChar in Hc. repeat case_decide; simpl in Hc;
      repeat (apply elem_of_cons in Hc as [->|Hc]; [done|]);
      by apply elem_of_nil in Hc.
Qed.

(** The text returned by [escapeHtml] holds neither [<] nor [>], whatever
    the argument, [undefined] included. *)
Theorem escapeHtml_no_angle (s : option string) (c : ascii) :
  c ∈ chars (escapeHtml s) → c ≠ "<"%char ∧ c ≠ ">"%char.
Proof.
  destruct s as [s|].
  - rewrite escapeHtml_charwise. apply escapeCharwise_no_angle.
  - rewrite escapeHtml_undefined. by intros ?%elem_of_nil.
Qed.

Lemma escapeHtml_no_angle_witness :
  let c := "p"%char in c ≠ "<"%char ∧ c ≠ ">"%char.
Proof.
  apply (escapeHtml_no_angle (Some "<p>")). vm_compute.
  do 4 apply list_elem_of_further. apply list_elem_of_here.
Defined.

(** [escapeHtml] is injective on strings: two different texts never get the
    same markup. *)
Theorem escapeHtml_inj (s1 s2 : string) :
  escapeHtml (Some s1) = escapeHtml (Some s2) → s1 = s2.
Proof.
  rewrite !escapeHtml_charwise. revert s2.
  induction s1 as [|c1 s1 IH]; intros [|c2 s2]; simpl; unfold escapeChar;
    repeat case_decide; subst;
    rewrite ?string_app_cons, ?string_app_empty;
    intros Heq; try discriminate Heq; try done;
    simplify_eq; try done; f_equal; by apply IH.
Qed.

Lemma escapeHtml_inj_witness : "a<b" = "a<b".
Proof. apply escapeHtml_inj. reflexivity. Defined.

(** ** The index seeded from the static list *)

Lemma seed_foldl_lookup (ps : list Product) (m : gmap string Product) (k : string) :
  foldl (λ idx p, <[p_id p := p]> idx) m ps !! k =
    match last (filter (λ p, p_id p = k) ps) with
    | Some p => Some p
    | None => m !! k
    end.
Proof.
  revert m. induction ps as [|p ps IH]; intros m; simpl; [done|].
  rewrite IH, filter_cons. case_decide as Hk.
  - rewrite last_cons.
    destruct (last (filter (λ p, p_id p = k) ps)); [done|].
    subst k. by rewrite lookup_insert_eq.
  - destruct (last (filter (λ p, p_id p = k) ps)); [done|].
    by rewrite lookup_insert_ne.
Qed.

(** After the first loop of [buildProductsIndex] a key holds the last
    product of the list that has this id, and a key that is the id of no
    product holds nothing. *)
Theorem seedProductsIndex_lookup (ps : list Product) (k : string) :
  seedProductsIndex ps !! k = last (filter (λ p, p_id p = k) ps).
Proof.
  unfold seedProductsIndex. rewrite seed_foldl_lookup, lookup_empty.
  by destruct (last (filter (λ p, p_id p = k) ps)).
Qed.

(** ** Adding to the cart *)

(** The two cases of [addToCart] for an id of the index. *)
Lemma addToCart_own_id (idx : gmap string Product) (id : string) (qty : Z)
    (cart : list CartLine) (p : Product) :
  idx !! id = Some p →
  (id ∉ ci_id <$> cart →
     addToCart idx id qty cart =
       cart ++ [mkLine id (Some (p_title p)) (p_price p)
                       (if decide (qty = 0) then 1 else qty)
                       (p_image p) (p_shopify p)])
  ∧ (∀ pre it post,
       cart = pre ++ it :: post → ci_id it = id → id ∉ ci_id <$> pre →
       addToCart idx id qty cart = pre ++ set_qty it (ci_qty it + qty) :: post).
Proof.
  intros Hp. unfold addToCart. rewrite (index_get_own _ _ _ Hp). split.
  - intros Hid%findCartItem_None. rewrite Hid. simpl.
    by rewrite num_or_0, !str_or_empty.
  - intros pre it post -> Hid Hpre.
    rewrite (findCartItem_app_fresh id pre it post Hid Hpre).
    by rewrite insert_at_prefix.
Qed.

(** [addToCart] for an id of the index.  Without a line for the id, one
    line is pushed at the end with the title, price, image and variant of
    the index entry and the quantity asked for, a quantity of 0 counting as
    1.  With a line for the id, the first such line keeps its id, title,
    price, image and variant and its quantity becomes the old quantity plus
    the one asked for (0 included); nothing else changes. *)
Theorem addToCart_known_id (idx : gmap string Product) (id : string) (qty : Z)
    (cart : list CartLine) (p : Product) :
  idx !! id = Some p →
  (id ∉ ci_id <$> cart →
     addToCart idx id qty cart =
       cart ++ [mkLine id (Some (p_title p)) (p_price p)
                       (if decide (qty = 0) then 1 else qty)
                       (p_image p) (p_shopify p)])
  ∧ (∀ pre it post,
       cart = pre ++ it :: post → ci_id it = id → id ∉ ci_id <$> pre →
       addToCart idx id qty cart =
         pre ++ mkLine (ci_id it) (ci_title it) (ci_price it)
                       (ci_qty it + qty) (ci_img it) (ci_variant it)
             :: post).
Proof.
  intros Hp. destruct (addToCart_own_id idx id qty cart p Hp) as [Hnew Hold].
  split; [exact Hnew|].
  intros pre it post Hcart Hid Hpre. by rewrite (Hold pre it post).
Qed.

Lemma addToCart_known_id_witness :
  let idx := seedProductsIndex PRODUCTS in
  let p302 := mkProduct "302" "Harbor Navy Sweatshirt" 1099
                "https://via.placeholder.com/800x1000?text=Harbor+Navy+Sweatshirt"
                "https://desak-sak.myshopify.com/products/harbor-navy-sweatshirt"
                "" in
  let other := mkLine "202" (Some "Beige Fleece Hoodie") 2499 1 "" "" in
  let it := mkLine "302" (Some "Navy") 900 3 "img" "V9" in
  addToCart idx "302" 0 [] =
    [mkLine "302" (Some "Harbor Navy Sweatshirt") 1099 1
       "https://via.placeholder.com/800x1000?text=Harbor+Navy+Sweatshirt" ""]
  ∧ addToCart idx "302" 2 [other; it; it] =
      [other; mkLine "302" (Some "Navy") 900 5 "img" "V9"; it].
Proof.
  intros idx p302 other it. split.
  - destruct (addToCart_known_id idx "302" 0 [] p302) as [Hnew _];
      [reflexivity|].
    apply Hnew. apply not_elem_of_nil.
  - destruct (addToCart_known_id idx "302" 2 [other; it; it] p302)
      as [_ Hold]; [reflexivity|].
    apply (Hold [other] it [it]).
    + reflexivity.
    + reflexivity.
    + simpl. intros Hin. apply elem_of_cons in Hin as [Hin|Hin].
      * discriminate Hin.
      * by apply elem_of_nil in Hin.
Defined.

Lemma addToCart_unknown_id_witness :
  addToCart (seedProductsIndex PRODUCTS) "999" 1
    [mkLine "101" (Some "Unisex Hoodie") 1099 3 "" ""]
  = [mkLine "101" (Some "Unisex Hoodie") 1099 3 "" ""].
Proof.
  apply addToCart_unknown_id; [reflexivity|].
  unfold Object_prototype_keys. intros Hin.
  repeat (apply elem_of_cons in Hin as [Hin|Hin]; [discriminate Hin|]).
  by apply elem_of_nil in Hin.
Defined.

(** ** Removing a line *)

(** [removeCartItem(id)] leaves no line for the id, keeps every other line
    in its place and order, and changes nothing when there is no line for
    the id. *)
Theorem removeCartItem_spec (id : string) (cart : list CartLine) :
  (id ∉ ci_id <$> removeCartItem id cart)
  ∧ (∀ it, it ∈ removeCartItem id cart ↔ it ∈ cart ∧ ci_id it ≠ id)
  ∧ (removeCartItem id cart `sublist_of` cart)
  ∧ (id ∉ ci_id <$> cart → removeCartItem id cart = cart)
  ∧ removeCartItem id (removeCartItem id cart) = removeCartItem id cart.
Proof.
  unfold removeCartItem. split_and!.
  - rewrite list_elem_of_fmap. intros (it & Hid & Hin).
    apply list_elem_of_filter in Hin as [Hne _]. by apply Hne.
  - intros it. rewrite list_elem_of_filter. tauto.
  - apply sublist_filter.
  - intros Hid. induction cart as [|it cart IH]; [done|].
    rewrite fmap_cons, not_elem_of_cons in Hid. destruct Hid as [Hne Hid].
    rewrite filter_cons, decide_True by done. f_equal. by apply IH.
  - induction cart as [|it cart IH]; [done|].
    rewrite filter_cons. case_decide; [|done].
    rewrite filter_cons, decide_True by done. by rewrite IH.
Qed.

Lemma removeCartItem_spec_witness :
  removeCartItem "999" [mkLine "101" (Some "Unisex Hoodie") 1099 3 "" ""]
  = [mkLine "101" (Some "Unisex Hoodie") 1099 3 "" ""].
Proof.
  destruct (removeCartItem_spec "999"
              [mkLine "101" (Some "Unisex Hoodie") 1099 3 "" ""])
    as (_ & _ & _ & Hnoop & _).
  apply Hnoop. simpl. intros Hin. apply elem_of_cons in Hin as [Hin|Hin].
  - discriminate Hin.
  - by apply elem_of_nil in Hin.
Defined.

(** ** Totals: the badge count and the subtotal *)

Lemma cartCount_foldl (cart : list CartLine) (acc : Z) :
  foldl (λ s it, s + num_or (ci_qty it) 0) acc cart = acc + cartCount cart.
Proof.
  unfold cartCount. revert acc.
  induction cart as [|it cart IH]; intros acc; simpl; [lia|].
  rewrite IH, (IH (0 + _)). lia.
Qed.

Lemma cartCount_cons (it : CartLine) (cart : list CartLine) :
  cartCount (it :: cart) = ci_qty it + cartCount cart.
Proof.
  unfold cartCount at 1. simpl. rewrite cartCount_foldl, num_or_0. lia.
Qed.

Lemma cartCount_app (l1 l2 : list CartLine) :
  cartCount (l1 ++ l2) = cartCount l1 + cartCount l2.
Proof.
  induction l1 as [|it l1 IH]; [done|].
  simpl. rewrite !cartCount_cons, IH. lia.
Qed.

Lemma spec_subtotal_app (l1 l2 : list CartLine) :
  spec_subtotal (l1 ++ l2) = spec_subtotal l1 + spec_subtotal l2.
Proof.
  induction l1 as [|it l1 IH]; [done|].
  simpl. fold (spec_subtotal (l1 ++ l2)) (spec_subtotal l1). rewrite IH. lia.
Qed.

Lemma spec_subtotal_cons (it : CartLine) (cart : list CartLine) :
  spec_subtotal (it :: cart) = ci_price it * ci_qty it + spec_subtotal cart.
Proof. reflexivity. Qed.

(** [addToCart(id, n)] with an id of the index and [n] other than 0 raises
    the badge count by [n] and the subtotal by [n] times the unit price; for
    a line already in the cart this is the price stored in the line at its
    first add, not the current price of the index. *)
Theorem addToCart_totals (idx : gmap string Product) (id : string) (n : Z)
    (cart : list CartLine) (p : Product) :
  idx !! id = Some p → n ≠ 0 →
  cartCount (addToCart idx id n cart) = cartCount cart + n
  ∧ spec_subtotal (addToCart idx id n cart)
      = spec_subtotal cart + unitPrice id cart p * n.
Proof.
  intros Hp Hn. unfold unitPrice.
  destruct (addToCart_own_id idx id n cart p Hp) as [Hnew Hold].
  destruct (findCartItem id cart) as [[i it]|] eqn:Hfind.
  - apply findCartItem_split in Hfind as (pre & post & -> & _ & Hid & Hpre).
    rewrite (Hold pre it post) by done.
    rewrite !cartCount_app, !cartCount_cons, !spec_subtotal_app,
      !spec_subtotal_cons. simpl. lia.
  - apply findCartItem_None in Hfind. rewrite Hnew by done.
    rewrite cartCount_app, cartCount_cons, spec_subtotal_app,
      spec_subtotal_cons.
    rewrite decide_False by done. simpl.
    unfold cartCount at 2. simpl. lia.
Qed.

Lemma addToCart_totals_witness :
  let idx := seedProductsIndex PRODUCTS in
  let cart := [mkLine "101" (Some "Unisex Hoodie") 900 1 "" ""] in
  cartCount (addToCart idx "101" 2 cart) = 3
  ∧ spec_subtotal (addToCart idx "101" 2 cart) = 2700.
Proof.
  intros idx cart.
  apply (addToCart_totals idx "101" 2 cart
           (mkProduct "101" "Unisex Hoodie" 1099
              "https://desak-sak.myshopify.com/cdn/shop/files/Back_2_c_10_584ee972-23d2-4339-b7af-61cba4019ebb.jpg?v=1763120934&width=832"
              "https://desak-sak.myshopify.com/products/unisex-hoodie-5?variant=58376455094353" ""));
    [reflexivity | lia].
Defined.

(** [changeCartQty(id, delta)] on a cart whose first line for the id is
    [it]: when the new quantity stays positive the badge count moves by
    [delta] and the subtotal by [delta] times the price of the line;
    otherwise the line goes and both lose exactly what the line
    contributed. *)
Theorem changeCartQty_totals (id : string) (delta : Z) (cart : list CartLine)
    (i : nat) (it : CartLine) :
  findCartItem id cart = Some (i, it) →
  let moved := if decide (ci_qty it + delta ≤ 0) then - ci_qty it else delta in
  cartCount (changeCartQty id delta cart) = cartCount cart + moved
  ∧ spec_subtotal (changeCartQty id delta cart)
      = spec_subtotal cart + ci_price it * moved.
Proof.
  intros (pre & post & -> & _ & Hid & Hpre)%findCartItem_split moved.
  subst moved. rewrite changeCartQty_middle by done.
  case_decide;
    rewrite !cartCount_app, ?cartCount_cons, !spec_subtotal_app,
      ?spec_subtotal_cons; simpl; lia.
Qed.

Lemma changeCartQty_totals_witness :
  let cart := [mkLine "101" (Some "Unisex Hoodie") 1099 3 "" "";
               mkLine "202" (Some "Beige Fleece Hoodie") 2499 1 "" ""] in
  cartCount (changeCartQty "202" (-1) cart) = 3
  ∧ spec_subtotal (changeCartQty "202" (-1) cart) = 3297.
Proof.
  intros cart.
  apply (changeCartQty_totals "202" (-1) cart 1%nat
           (mkLine "202" (Some "Beige Fleece Hoodie") 2499 1 "" "")).
  reflexivity.
Defined.

(** ** What the event handlers keep *)

Lemma filter_ne_NoDup (id : string) (wishlist : list string) :
  NoDup wishlist → NoDup (filter (λ x, x ≠ id) wishlist).
Proof. apply NoDup_filter. Qed.

Lemma handle_keeps (idx : gmap string Product) (s : State) (ev : UIEvent) :
  duplicate_free s ∧ positive_quantities (CART s) →
  duplicate_free (handle idx s ev) ∧ positive_quantities (CART (handle idx s ev)).
Proof.
  intros [[Hc Hw] Hpos]. unfold duplicate_free.
  destruct ev as [card_id|btn_id card_id|data_id|data_id|data_id confirmed
                 |confirmed|data_id|data_id|confirmed]; simpl.
  - destruct (attr_truthy card_id); simpl; split_and!;
      auto using toggleWishlist_NoDup.
  - destruct (attr_truthy (attr_or btn_id card_id)); simpl; split_and!;
      auto using addToCart_NoDup, addToCart_positive with lia.
  - split_and!; auto using changeCartQty_NoDup, changeCartQty_positive.
  - split_and!; auto using changeCartQty_NoDup, changeCartQty_positive.
  - destruct confirmed; simpl; split_and!;
      auto using removeCartItem_NoDup, removeCartItem_positive.
  - destruct confirmed; simpl; split_and!; auto using NoDup_nil_2.
    apply Forall_nil_2.
  - destruct (attr_truthy data_id); simpl; split_and!;
      auto using addToCart_NoDup, addToCart_positive, filter_ne_NoDup with lia.
  - destruct (attr_truthy data_id); simpl; split_and!;
      auto using filter_ne_NoDup.
  - by split_and!.
Qed.

(** Whatever the user clicks, in whatever order and with whatever answers
    to the confirmation prompts, a state without duplicate ids in which
    every line has a quantity of at least 1 stays such a state: the
    handlers only ever add 1, change by 1 (removing at 0), remove or
    clear. *)
Theorem handleAll_keeps (idx : gmap string Product) (evs : list UIEvent)
    (s : State) :
  duplicate_free s → positive_quantities (CART s) →
  duplicate_free (handleAll idx evs s)
  ∧ positive_quantities (CART (handleAll idx evs s)).
Proof.
  intros Hd Hp. assert (H : duplicate_free s ∧ positive_quantities (CART s))
    by done. clear Hd Hp. revert s H. unfold handleAll.
  induction evs as [|ev evs IH]; intros s H; simpl; [done|].
  apply IH. by apply handle_keeps.
Qed.

Lemma handleAll_keeps_witness :
  let s := handleAll (seedProductsIndex PRODUCTS)
             [ClickCartBtn (Some "101") None; ClickCartBtn None (Some "101");
              ClickHeart (Some "202"); ClickCartDec (Some "101");
              ClickAddFromWishlist (Some "202"); ClickCartDec (Some "202");
              ClickCartRemove (Some "101") false]
             (mkState [] []) in
  duplicate_free s ∧ positive_quantities (CART s).
Proof.
  apply handleAll_keeps.
  - split; apply NoDup_nil_2.
  - apply Forall_nil_2.
Defined.

(** ** The badge *)

Lemma cartCount_positive (cart : list CartLine) :
  positive_quantities cart → Z.of_nat (length cart) ≤ cartCount cart.
Proof.
  induction 1 as [|it cart Hit _ IH]; [done|].
  rewrite cartCount_cons. simpl length. lia.
Qed.

(** When every line has a quantity of at least 1, [updateCartCount] hides
    the badge exactly for the empty cart and otherwise shows the sum of the
    quantities, which is at least the number of lines; without a badge
    element it does nothing. *)
Theorem updateCartCount_badge (cart : list CartLine) :
  positive_quantities cart →
  updateCartCount true cart =
    Some (if decide (cart = []) then BadgeHidden
          else BadgeShown (Number_toString (cartCount cart)))
  ∧ Z.of_nat (length cart) ≤ cartCount cart
  ∧ updateCartCount false cart = None.
Proof.
  intros Hpos. pose proof (cartCount_positive cart Hpos) as Hlen.
  split_and!; [|done|done].
  unfold updateCartCount. simpl. destruct cart as [|it cart].
  - done.
  - rewrite decide_True; [done|]. simpl length in Hlen. lia.
Qed.

Lemma updateCartCount_badge_witness :
  let cart := [mkLine "101" (Some "Unisex Hoodie") 1099 3 "" "";
               mkLine "202" (Some "Beige Fleece Hoodie") 2499 1 "" ""] in
  updateCartCount true cart = Some (BadgeShown "4")
  ∧ Z.of_nat (length cart) ≤ cartCount cart
  ∧ updateCartCount false cart = None.
Proof.
  intros cart. apply (updateCartCount_badge cart).
  repeat constructor; simpl; lia.
Defined.

(** ** [proceedToCheckout] *)

Lemma prefix_app (s rest : string) : String.prefix s (s +:+ rest) = true.
Proof.
  induction s as [|c s IH]; [by destruct rest|].
  rewrite string_app_cons. simpl. by destruct (Ascii.ascii_dec c c).
Qed.

Lemma includes_here (needle rest : string) :
  includes needle (needle +:+ rest) = true.
Proof.
  assert (Hunfold : ∀ hay, includes needle hay = true ↔
            String.prefix needle hay = true ∨
            match hay with
            | EmptyString => False
            | String _ hay' => includes needle hay' = true
            end).
  { intros [|c hay]; simpl; rewrite orb_true_iff; [|done].
    split; intros [H|H]; auto; done. }
  apply Hunfold. left. apply prefix_app.
Qed.

Lemma includes_later (needle pre hay : string) :
  includes needle hay = true → includes needle (pre +:+ hay) = true.
Proof.
  intros Hin. induction pre as [|c pre IH]; [done|].
  rewrite string_app_cons. simpl. rewrite IH. apply orb_true_r.
Qed.

Lemma includes_cart_link (rest : string) :
  includes "/cart/" (storeOrigin +:+ "/cart/" +:+ rest) = true.
Proof. apply includes_later, includes_here. Qed.

(** With an empty cart [proceedToCheckout] only alerts.  Otherwise it goes
    to the cart link when at least one line has a variant reference, and,
    when none has, to the bare store origin if the user agrees and nowhere
    if not.  Every address it goes to starts with the store origin; the
    empty address that [buildShopifyCheckoutURL] returns for an empty cart
    is never used. *)
Theorem proceedToCheckout_outcome (idx : gmap string Product)
    (confirmed : bool) (cart : list CartLine) :
  proceedToCheckout idx confirmed [] = CheckoutAlert "Your cart is empty."
  ∧ (cart ≠ [] →
       proceedToCheckout idx confirmed cart =
         if decide (Exists (λ ci, hasVariantRef idx ci = true) cart)
         then CheckoutNavigate (buildShopifyCheckoutURL idx cart)
         else if confirmed then CheckoutNavigate storeOrigin
         else CheckoutStay)
  ∧ (∀ url, proceedToCheckout idx confirmed cart = CheckoutNavigate url →
       String.prefix storeOrigin url = true).
Proof.
  assert (Hne : cart ≠ [] →
       proceedToCheckout idx confirmed cart =
         if decide (Exists (λ ci, hasVariantRef idx ci = true) cart)
         then CheckoutNavigate (buildShopifyCheckoutURL idx cart)
         else if confirmed then CheckoutNavigate storeOrigin
         else CheckoutStay).
  { intros Hcart. unfold proceedToCheckout.
    destruct cart as [|c cart']; [done|].
    rewrite buildShopifyCheckoutURL_nonempty by done. simpl.
    case_decide as Hp.
    - pose proof (proj1 (spec_pairs_nil idx _) Hp) as Hnone.
      rewrite decide_False; [by destruct confirmed|].
      intros (ci & Hin & Hci)%Exists_exists. rewrite Hnone in Hci; done.
    - rewrite includes_cart_link. rewrite decide_True; [done|].
      apply dec_stable. intros Hno. apply Hp. apply (spec_pairs_nil idx).
      intros ci Hin. destruct (hasVariantRef idx ci) eqn:Hci; [|done].
      exfalso. apply Hno, Exists_exists. by exists ci. }
  split_and!; [done | exact Hne |].
  intros url. destruct (decide (cart = [])) as [->|Hcart]; [done|].
  rewrite Hne by done. rewrite buildShopifyCheckoutURL_nonempty by done.
  simpl. repeat case_decide; try destruct confirmed;
    intros [= <-]; try reflexivity.
Qed.

Lemma proceedToCheckout_outcome_witness :
  let idx := seedProductsIndex PRODUCTS in
  proceedToCheckout idx false
    [mkLine "901" (Some "Custom Tee") 500 2 "" "V1";
     mkLine "101" (Some "Unisex Hoodie") 1099 1 "" ""]
  = CheckoutNavigate "https://desak-sak.myshopify.com/cart/V1:2"
  ∧ proceedToCheckout idx false
      [mkLine "101" (Some "Unisex Hoodie") 1099 1 "" ""] = CheckoutStay.
Proof.
  intros idx. split.
  - destruct (proceedToCheckout_outcome idx false
                [mkLine "901" (Some "Custom Tee") 500 2 "" "V1";
                 mkLine "101" (Some "Unisex Hoodie") 1099 1 "" ""])
      as (_ & Hne & _).
    rewrite Hne by done. reflexivity.
  - destruct (proceedToCheckout_outcome idx false
                [mkLine "101" (Some "Unisex Hoodie") 1099 1 "" ""])
      as (_ & Hne & _).
    rewrite Hne by done. reflexivity.
Defined.

(** ** Saving and loading again *)

Section SaveLoad.
Variable JSON_parse : string → Completion JSON.
Variable JSON_stringify : JSON → Completion string.
Variable quota : gmap string string → string → string → bool.

(** A save writes at most its own key. *)
Lemma saveJSON_other_key (k k' : string) (v : JSON)
    (localStorage : gmap string string) :
  k ≠ k' →
  saveJSON JSON_stringify quota k v localStorage !! k' = localStorage !! k'.
Proof.
  intros Hk. unfold saveJSON, try_catch, setItem.
  destruct (JSON_stringify v) as [s|e]; [|done].
  destruct (quota localStorage k s); [|done].
  by rewrite lookup_insert_ne.
Qed.

Lemma loadList_same_entry (key : string) (st1 st2 : gmap string string) :
  st1 !! key = st2 !! key →
  loadList JSON_parse st1 key = loadList JSON_parse st2 key.
Proof. intros Heq. unfold loadList, loadJSON. by rewrite Heq. Qed.

(** Saving the cart never changes what the wishlist loads as, and saving
    the wishlist never changes what the cart loads as, whether or not the
    save goes through. *)
Theorem save_other_list_untouched (cart : list CartLine)
    (wishlist : list string) (localStorage : gmap string string) :
  initWISHLIST JSON_parse (saveCart JSON_stringify quota cart localStorage)
    = initWISHLIST JSON_parse localStorage
  ∧ initCART JSON_parse (saveWishlist JSON_stringify quota wishlist localStorage)
      = initCART JSON_parse localStorage.
Proof.
  unfold initWISHLIST, initCART, saveCart, saveWishlist.
  split; apply loadList_same_entry, saveJSON_other_key; discriminate.
Qed.

(** When the value serialises, the storage accepts the string and
    [JSON.parse] reads the string back as the value, a load after the save
    returns the saved value; for the cart, the load at the next page view
    gives the lines that were saved. *)
Theorem save_then_load (k s : string) (v fallback : JSON) (cart : list CartLine)
    (localStorage : gmap string string) :
  (JSON_stringify v = Normal s → quota localStorage k s = true →
   JSON_parse s = Normal v →
   loadJSON JSON_parse (saveJSON JSON_stringify quota k v localStorage) k fallback
     = Normal v)
  ∧ (JSON_stringify (encodeCart cart) = Normal s →
     quota localStorage CART_KEY s = true →
     JSON_parse s = Normal (encodeCart cart) →
     initCART JSON_parse (saveCart JSON_stringify quota cart localStorage)
       = Normal (encodeCart cart)).
Proof.
  assert (Hgen : ∀ k v fallback,
    JSON_stringify v = Normal s → quota localStorage k s = true →
    JSON_parse s = Normal v →
    loadJSON JSON_parse (saveJSON JSON_stringify quota k v localStorage) k fallback
      = Normal v).
  { intros k0 v0 fb Hs Hq Hp. unfold saveJSON, try_catch, setItem.
    rewrite Hs, Hq. unfold loadJSON. rewrite lookup_insert_eq.
    unfold safeJSON, try_catch. by rewrite Hp. }
  split; [apply Hgen|].
  intros Hs Hq Hp. unfold initCART, loadList, saveCart.
  by rewrite (Hgen _ _ _ Hs Hq Hp).
Qed.

(** When the value does not serialise or the storage refuses the string,
    the failure is swallowed and the storage is left as it was. *)
Theorem save_failure_keeps_storage (k : string) (v : JSON)
    (localStorage : gmap string string) :
  (∃ e, JSON_stringify v = Throw e)
  ∨ (∃ s, JSON_stringify v = Normal s ∧ quota localStorage k s = false) →
  saveJSON JSON_stringify quota k v localStorage = localStorage.
Proof.
  unfold saveJSON, try_catch, setItem.
  intros [[e ->] | (s & -> & ->)]; done.
Qed.

(** A stored string that parses to an array is loaded as that array, with
    its elements as they are: the loader checks that the value is an array
    and nothing about what the array holds. *)
Theorem loadList_keeps_array (key raw : string) (items : list JSON)
    (localStorage : gmap string string) :
  localStorage !! key = Some raw → JSON_parse raw = Normal (JArr items) →
  loadList JSON_parse localStorage key = Normal (JArr items).
Proof.
  intros Hraw Hparse. unfold loadList.
  by rewrite (loadJSON_parsed _ _ _ _ _ _ Hraw Hparse).
Qed.
End SaveLoad.

Lemma save_then_load_witness :
  initCART sample_parse
    (saveCart sample_stringify (λ _ _ _, true) [] {[ CART_KEY := "{oops" ]})
  = Normal (encodeCart []).
Proof.
  destruct (save_then_load sample_parse sample_stringify (λ _ _ _, true)
              CART_KEY "[]" JNull JNull [] {[ CART_KEY := "{oops" ]})
    as [_ Hcart].
  apply Hcart; reflexivity.
Defined.

Lemma save_failure_keeps_storage_witness :
  saveJSON sample_stringify (λ _ _ _, false) CART_KEY (JArr [])
    {[ CART_KEY := "[101]" ]}
  = {[ CART_KEY := "[101]" ]}.
Proof.
  apply save_failure_keeps_storage. right. by exists "[]".
Defined.

Lemma loadList_keeps_array_witness :
  loadList sample_parse {[ CART_KEY := "[101]" ]} CART_KEY
  = Normal (JArr [JNum 101 0]).
Proof.
  apply (loadList_keeps_array sample_parse CART_KEY "[101]"); reflexivity.
Defined.

(** ** The wishlist, once more *)

Lemma filter_ne_snoc (id : string) (wishlist : list string) :
  id ∉ wishlist → filter (λ x, x ≠ id) (wishlist ++ [id]) = wishlist.
Proof.
  intros Hid. rewrite filter_app.
  rewrite (filter_singleton_False (λ x, x ≠ id) id []) by (intros H; by apply H).
  rewrite app_nil_r. induction wishlist as [|x w IH]; [done|].
  rewrite not_elem_of_cons in Hid. destruct Hid as [Hne Hid].
  rewrite filter_cons, decide_True by done. f_equal. by apply IH.
Qed.

(** Two toggles of an id that was not wishlisted give back the very same
    list; two toggles of an id that was wishlisted give the list without
    the id, followed by the id: the entry moves to the end. *)
Theorem toggleWishlist_twice_list (id : string) (wishlist : list string) :
  toggleWishlist id (toggleWishlist id wishlist) =
    if isWishlisted id wishlist
    then filter (λ x, x ≠ id) wishlist ++ [id]
    else wishlist.
Proof.
  destruct (isWishlisted id wishlist) eqn:Hid.
  - assert (isWishlisted id (toggleWishlist id wishlist) = false) as Hoff.
    { rewrite isWishlisted_toggle, decide_True by done. by rewrite Hid. }
    unfold toggleWishlist at 1. rewrite Hoff.
    unfold toggleWishlist. by rewrite Hid.
  - assert (isWishlisted id (toggleWishlist id wishlist) = true) as Hon.
    { rewrite isWishlisted_toggle, decide_True by done. by rewrite Hid. }
    unfold toggleWishlist at 1. rewrite Hon.
    unfold toggleWishlist. rewrite Hid. apply filter_ne_snoc.
    unfold isWishlisted in Hid. by apply bool_decide_eq_false in Hid.
Qed.

(** The button that moves a wishlist entry to the cart: afterwards the id
    is not wishlisted and every other entry is where it was; the cart has a
    line for the id when the index holds the id.  When the index read is
    [undefined] the cart stays as it is, and the entry is dropped from the
    wishlist all the same. *)
Theorem addFromWishlist_moves (idx : gmap string Product) (s : State)
    (id : string) :
  id ≠ "" →
  let s' := handle idx s (ClickAddFromWishlist (Some id)) in
  isWishlisted id (WISHLIST s') = false
  ∧ (∀ x, x ≠ id → isWishlisted x (WISHLIST s') = isWishlisted x (WISHLIST s))
  ∧ (is_Some (idx !! id) → id ∈ ci_id <$> CART s')
  ∧ (index_get idx id = Undefined → CART s' = CART s).
Proof.
  intros Hid s'. subst s'. simpl. unfold truthy.
  rewrite bool_decide_eq_true_2 by done. simpl. split_and!.
  - rewrite isWishlisted_filter_ne. by rewrite decide_True.
  - intros x Hx. rewrite isWishlisted_filter_ne. by rewrite decide_False.
  - intros [p Hp]. unfold addToCart. rewrite (index_get_own _ _ _ Hp).
    destruct (findCartItem id (CART s)) as [[i it]|] eqn:Hfind.
    + apply findCartItem_Some in Hfind as [Hi Hit].
      rewrite (ids_set_qty _ _ _ _ Hi). rewrite list_elem_of_fmap.
      exists it. split; [done|]. by eapply list_elem_of_lookup_2.
    + rewrite fmap_app. apply elem_of_app. right. simpl.
      apply list_elem_of_here.
  - intros Hund. unfold addToCart. by rewrite Hund.
Qed.

Lemma addFromWishlist_moves_witness :
  let idx := seedProductsIndex PRODUCTS in
  let s := mkState [] ["201"; "999"] in
  let s' := handle idx s (ClickAddFromWishlist (Some "999")) in
  isWishlisted "999" (WISHLIST s') = false
  ∧ (∀ x, x ≠ "999" → isWishlisted x (WISHLIST s') = isWishlisted x (WISHLIST s))
  ∧ (is_Some (idx !! "999") → "999" ∈ ci_id <$> CART s')
  ∧ (index_get idx "999" = Undefined → CART s' = CART s).
Proof.
  intros idx s. apply (addFromWishlist_moves idx s "999"). discriminate.
Defined.
